(** * Carbon footprint calculator (ETE-2.py): emissions engine, session
      history, recommendation selector and reference-dataset queries.

    The script is a Streamlit page.  What is embedded here is its domain
    logic: the factor table, the five category estimators and the total
    (the body of the "Calculate" button), the session history it appends
    to, the focus-area selector, the percentage comparisons and the pandas
    queries on the per-country dataset.  Widgets, charts and file loading
    are inputs and outputs of these functions and are not modelled.

    Numbers.  Python mixes [int] (unbounded) and [float] (binary64).  The
    embedding keeps that distinction ([number]) and is written once over an
    abstract carrier for [float] values ([FloatOps]).  Two carriers are
    provided: exact rationals [Q], on which the algebraic properties are
    proved, and Rocq's primitive binary64 floats, on which the very same
    definitions evaluate to the bits the script computes. *)

From Stdlib Require Import ZArith QArith Qabs String List Bool Lia Lqa.
From Stdlib Require Import Permutation Sorted Floats.
Import ListNotations.

Set Implicit Arguments.

Local Open Scope Z_scope.

(** ** Python exceptions and results *)

Inductive exn :=
| KeyError (k : string)
| TypeError
| ZeroDivisionError
| IndexError
| ValueError.

Inductive outcome (X : Type) :=
| Ok (x : X)
| Raise (e : exn).

Arguments Ok {X} x.
Arguments Raise {X} e.

Definition bind {X Y : Type} (m : outcome X) (k : X -> outcome Y) : outcome Y :=
  match m with
  | Ok x => k x
  | Raise e => Raise e
  end.

Declare Scope py_scope.
Delimit Scope py_scope with py.
Notation "x <- m ;; k" := (bind m (fun x => k))
  (at level 61, m at next level, right associativity) : py_scope.
Local Open Scope py_scope.

(** ** The carrier of [float] values *)

Class FloatOps (F : Type) := {
  f_of_Z : Z -> F;
  f_add : F -> F -> F;
  f_sub : F -> F -> F;
  f_mul : F -> F -> F;
  f_div : F -> F -> F;
  f_ltb : F -> F -> bool;
  f_eqb : F -> F -> bool
}.

(** Exact rationals.  [Qdiv] by zero is 0 in Rocq, which no Python division
    does: statements on this carrier only divide by nonzero values. *)
#[global] Instance Q_ops : FloatOps Q := {
  f_of_Z := inject_Z;
  f_add := Qplus;
  f_sub := Qminus;
  f_mul := Qmult;
  f_div := Qdiv;
  f_ltb := fun x y => negb (Qle_bool y x);
  f_eqb := Qeq_bool
}.

(** IEEE-754 binary64, the representation of Python's [float] and of
    numpy's [float64].  An [int] is converted by rounding to nearest even. *)
Definition float_of_Z (z : Z) : float :=
  SF2Prim (binary_normalize prec emax z 0 false).

#[global] Instance binary64_ops : FloatOps float := {
  f_of_Z := float_of_Z;
  f_add := PrimFloat.add;
  f_sub := PrimFloat.sub;
  f_mul := PrimFloat.mul;
  f_div := PrimFloat.div;
  f_ltb := PrimFloat.ltb;
  f_eqb := PrimFloat.eqb
}.

Section Engine.

Context {F : Type} {ops : FloatOps F}.

(** ** Python numbers

    An operation on two [int]s is exact and gives an [int]; as soon as one
    operand is a [float] the other is converted and the operation is the
    carrier's.  The integers of the script come from number inputs and
    sliders and are taken to lie in the range of binary64, where the
    conversion only rounds; Python's [OverflowError] for integers beyond
    that range is not modelled. *)

Inductive number :=
| PyInt (z : Z)
| PyFloat (x : F).

Definition to_float (n : number) : F :=
  match n with
  | PyInt z => f_of_Z z
  | PyFloat x => x
  end.

(** A decimal literal such as [0.192] denotes the float nearest to
    192/1000, which is the correctly rounded quotient of the two (exactly
    representable) integers. *)
Definition dec (n d : Z) : number := PyFloat (f_div (f_of_Z n) (f_of_Z d)).

Definition py_add (a b : number) : number :=
  match a, b with
  | PyInt x, PyInt y => PyInt (x + y)
  | _, _ => PyFloat (f_add (to_float a) (to_float b))
  end.

Definition py_sub (a b : number) : number :=
  match a, b with
  | PyInt x, PyInt y => PyInt (x - y)
  | _, _ => PyFloat (f_sub (to_float a) (to_float b))
  end.

Definition py_mul (a b : number) : number :=
  match a, b with
  | PyInt x, PyInt y => PyInt (x * y)
  | _, _ => PyFloat (f_mul (to_float a) (to_float b))
  end.

Definition is_zero (n : number) : bool :=
  match n with
  | PyInt z => z =? 0
  | PyFloat x => f_eqb x (f_of_Z 0)
  end.

(** [a / b] on Python numbers: always a float, [ZeroDivisionError] when
    [b] is zero.  (For two [int]s Python rounds the exact quotient; this is
    the quotient of the converted operands whenever both convert exactly,
    as the percentages and the constants of the script do.) *)
Definition py_truediv (a b : number) : outcome number :=
  if is_zero b then Raise ZeroDivisionError
  else Ok (PyFloat (f_div (to_float a) (to_float b))).

(** [a > b] and [a == b]; the script compares floats only. *)
Definition py_gt (a b : number) : bool :=
  match a, b with
  | PyInt x, PyInt y => y <? x
  | _, _ => f_ltb (to_float b) (to_float a)
  end.

Definition py_eq (a b : number) : bool :=
  match a, b with
  | PyInt x, PyInt y => x =? y
  | _, _ => f_eqb (to_float a) (to_float b)
  end.

(** ** Dictionaries keyed by strings *)

Fixpoint getitem {V : Type} (d : list (string * V)) (k : string) : outcome V :=
  match d with
  | [] => Raise (KeyError k)
  | (k', v) :: d' => if String.eqb k k' then Ok v else getitem d' k
  end.

Definition keys {V : Type} (d : list (string * V)) : list string := map fst d.

(** A value of the factor table: a number, or a nested table. *)
Inductive pyval :=
| VNum (n : number)
| VDict (d : list (string * number)).

Definition as_num (v : pyval) : outcome number :=
  match v with
  | VNum n => Ok n
  | VDict _ => Raise TypeError
  end.

Definition as_dict (v : pyval) : outcome (list (string * number)) :=
  match v with
  | VNum _ => Raise TypeError
  | VDict d => Ok d
  end.

(** ** The factor table (lines 143-198) *)

Definition emission_factors : list (string * pyval) :=
  [ ("Car (Gasoline)", VNum (dec 192 1000));
    ("Car (Diesel)", VNum (dec 171 1000));
    ("Car (Electric)", VNum (dec 53 1000));
    ("Car (Hybrid)", VNum (dec 106 1000));
    ("Public Bus", VNum (dec 105 1000));
    ("Train/Subway", VNum (dec 41 1000));
    ("Bicycle", VNum (PyInt 0));
    ("Walking", VNum (PyInt 0));
    ("Motorcycle", VNum (dec 103 1000));
    ("Short Flight", VNum (PyInt 500));
    ("Medium Flight", VNum (PyInt 1500));
    ("Long Flight", VNum (PyInt 3000));
    ("Electricity", VNum (dec 5 10));
    ("Natural Gas", VNum (dec 20 10));
    ("Oil", VNum (dec 27 10));
    ("Electric Heating", VNum (dec 5 10));
    ("Heat Pump", VNum (dec 25 100));
    ("Wood", VNum (dec 15 10));
    ("Coal", VNum (dec 288 100));
    ("Heavy Meat Eater", VNum (dec 719 100));
    ("Regular Meat Eater", VNum (dec 563 100));
    ("Low Meat Eater", VNum (dec 467 100));
    ("Pescatarian", VNum (dec 391 100));
    ("Vegetarian", VNum (dec 381 100));
    ("Vegan", VNum (dec 289 100));
    ("Clothing Spending",
     VDict [ ("Very Low", dec 5 10);
             ("Low", dec 75 100);
             ("Average", dec 10 10);
             ("High", dec 15 10);
             ("Very High", dec 20 10) ]);
    ("Electronics", VNum (PyInt 100));
    ("Waste", VNum (dec 5 10));
    ("Zero Waste Efforts",
     VDict [ ("None", dec 10 10);
             ("Minimal", dec 9 10);
             ("Moderate", dec 7 10);
             ("Significant", dec 5 10);
             ("Zero-waste lifestyle", dec 2 10) ]) ]%string.

(** [emission_factors[k]] used as a number. *)
Definition factor (k : string) : outcome number :=
  v <- getitem emission_factors k ;; as_num v.

(** [emission_factors[t]] used as a dictionary, and [emission_factors[t][k]]. *)
Definition nested_table (t : string) : outcome (list (string * number)) :=
  v <- getitem emission_factors t ;; as_dict v.

Definition subfactor (t k : string) : outcome number :=
  d <- nested_table t ;; getitem d k.

(** ** The inputs read from the widgets (lines 39-140)

    The type of each number is the one the widget returns: [number_input]
    with float bounds gives a [float], with int bounds an [int]; sliders
    give an [int].  [fuel_efficiency] and [ac_hours] exist in the script
    only when their widget is shown (car modes, air conditioning); they are
    read by the handler in these cases only, and so is the field here. *)

Record inputs := {
  transport_mode : string;
  daily_distance : F;
  fuel_efficiency : F;
  flight_short : Z;
  flight_medium : Z;
  flight_long : Z;
  electricity_kwh : Z;
  renewable_percentage : Z;
  heating_type : string;
  heating_usage : Z;
  has_ac : bool;
  ac_hours : Z;
  diet_type : string;
  local_food : Z;
  organic_food : Z;
  food_waste : Z;
  processed_food : Z;
  clothing_spending : string;
  electronics_yearly : Z;
  recycled_items : list string;
  second_hand : Z;
  waste_weekly : F;
  composting : bool;
  recycling_rate : Z;
  zero_waste : string
}.


(** ** The category estimators (lines 204-274)

    Each estimator is the expression the button handler evaluates, in the
    handler's order of evaluation; a failing lookup raises at the place
    where Python raises. *)

(** Daily commute, annualised (lines 207-217): the value added to
    [transport_emissions] before the flights. *)
Definition commute_emissions (i : inputs) : outcome number :=
  if prefix "Car" (transport_mode i) then
    if String.eqb (transport_mode i) "Car (Electric)" then
      kwh_per_day <- py_truediv (py_mul (PyFloat (daily_distance i))
                                        (PyFloat (fuel_efficiency i))) (PyInt 100) ;;
      f <- factor (transport_mode i) ;;
      Ok (py_mul (py_mul kwh_per_day f) (PyInt 365))
    else
      liters_per_day <- py_truediv (py_mul (PyFloat (daily_distance i))
                                           (PyFloat (fuel_efficiency i))) (PyInt 100) ;;
      f <- factor (transport_mode i) ;;
      Ok (py_mul (py_mul (PyFloat (daily_distance i)) f) (PyInt 365))
  else
    f <- factor (transport_mode i) ;;
    Ok (py_mul (py_mul (PyFloat (daily_distance i)) f) (PyInt 365)).

Definition transport_emissions (i : inputs) : outcome number :=
  c <- commute_emissions i ;;
  let t := py_add (PyInt 0) c in
  s <- factor "Short Flight" ;;
  let t := py_add t (py_mul (PyInt (flight_short i)) s) in
  m <- factor "Medium Flight" ;;
  let t := py_add t (py_mul (PyInt (flight_medium i)) m) in
  l <- factor "Long Flight" ;;
  Ok (py_add t (py_mul (PyInt (flight_long i)) l)).

(** [1 - renewable_percentage/100]. *)
Definition renewable_adjustment (i : inputs) : outcome number :=
  q <- py_truediv (PyInt (renewable_percentage i)) (PyInt 100) ;;
  Ok (py_sub (PyInt 1) q).

Definition heating_factor (i : inputs) : outcome number :=
  if String.eqb (heating_type i) "Electric" then factor "Electric Heating"
  else factor (heating_type i).

Definition energy_emissions (i : inputs) : outcome number :=
  e <- factor "Electricity" ;;
  r <- renewable_adjustment i ;;
  let en := py_add (PyInt 0)
              (py_mul (py_mul (py_mul (PyInt (electricity_kwh i)) e) r) (PyInt 12)) in
  hf <- heating_factor i ;;
  let en := py_add en (py_mul (py_mul (PyInt (heating_usage i)) hf) (PyInt 12)) in
  if has_ac i then
    e' <- factor "Electricity" ;;
    r' <- renewable_adjustment i ;;
    Ok (py_add en (py_mul (py_mul (py_mul (PyInt (ac_hours i)) (PyInt 365)) e') r'))
  else Ok en.

Definition diet_emissions (i : inputs) : outcome number :=
  f <- factor (diet_type i) ;;
  let base := py_mul f (PyInt 365) in
  l <- py_truediv (PyInt (local_food i)) (PyInt 200) ;;
  let local_modifier := py_sub (PyInt 1) l in
  o <- py_truediv (PyInt (organic_food i)) (PyInt 250) ;;
  let organic_modifier := py_sub (PyInt 1) o in
  w <- py_truediv (PyInt (food_waste i)) (PyInt 100) ;;
  let waste_modifier := py_add (PyInt 1) w in
  p <- py_truediv (PyInt (processed_food i)) (PyInt 200) ;;
  let processed_modifier := py_add (PyInt 1) p in
  Ok (py_mul base
        (py_mul (py_mul (py_mul local_modifier organic_modifier) waste_modifier)
                processed_modifier)).

Definition consumption_emissions (i : inputs) : outcome number :=
  clothing_factor <- subfactor "Clothing Spending" (clothing_spending i) ;;
  let c := py_add (PyInt 0) (py_mul clothing_factor (PyInt 500)) in
  e <- factor "Electronics" ;;
  let c := py_add c (py_mul (PyInt (electronics_yearly i)) e) in
  let recycling_modifier :=
    py_sub (PyInt 1)
           (py_mul (PyInt (Z.of_nat (length (recycled_items i)))) (dec 5 100)) in
  s <- py_truediv (PyInt (second_hand i)) (PyInt 200) ;;
  let secondhand_modifier := py_sub (PyInt 1) s in
  Ok (py_mul c (py_mul recycling_modifier secondhand_modifier)).

Definition waste_emissions (i : inputs) : outcome number :=
  f <- factor "Waste" ;;
  let w := py_mul (py_mul (PyFloat (waste_weekly i)) f) (PyInt 52) in
  let w := if composting i then py_mul w (dec 8 10) else w in
  r <- py_truediv (PyInt (recycling_rate i)) (PyInt 200) ;;
  let w := py_mul w (py_sub (PyInt 1) r) in
  z <- subfactor "Zero Waste Efforts" (zero_waste i) ;;
  Ok (py_mul w z).

(** Line 277. *)
Definition sum_emissions (t e d c w : number) : number :=
  py_add (py_add (py_add (py_add t e) d) c) w.

(** ** Session state (lines 23-34)

    [emissions_data] is a dictionary of seven parallel lists; one
    calculation is one entry at the same position of each list. *)

Record history := {
  date : list string;
  transport : list number;
  home_energy : list number;
  diet : list number;
  consumption : list number;
  waste : list number;
  total : list number
}.

Record session_state := {
  total_emissions : number;
  emissions_data : history
}.

Definition initial_session : session_state :=
  {| total_emissions := PyInt 0;
     emissions_data :=
       {| date := []; transport := []; home_energy := []; diet := [];
          consumption := []; waste := []; total := [] |} |}.

(** Lines 280-287: the stored total is overwritten, every list gets one
    more element at its end. *)
Definition update_session (now : string) (t e d c w tot : number)
    (s : session_state) : session_state :=
  let h := emissions_data s in
  {| total_emissions := tot;
     emissions_data :=
       {| date := date h ++ [now];
          transport := transport h ++ [t];
          home_energy := home_energy h ++ [e];
          diet := diet h ++ [d];
          consumption := consumption h ++ [c];
          waste := waste h ++ [w];
          total := total h ++ [tot] |} |}.

(** ** The button handler (lines 202-289)

    The handler runs in a state made of the script's variables assigned so
    far and of the session.  An exception stops it and leaves the state as
    it is at that point. *)

Record state := {
  globals : list (string * number);
  session : session_state
}.

Definition M (X : Type) : Type := state -> outcome X * state.

Definition ret {X : Type} (x : X) : M X := fun s => (Ok x, s).

Definition mbind {X Y : Type} (m : M X) (k : X -> M Y) : M Y :=
  fun s =>
    match m s with
    | (Ok x, s') => k x s'
    | (Raise e, s') => (Raise e, s')
    end.

Definition eval {X : Type} (o : outcome X) : M X := fun s => (o, s).

Definition assign (x : string) (v : number) : M unit :=
  fun s => (Ok tt, {| globals := (x, v) :: globals s; session := session s |}).

Definition modify_session (f : session_state -> session_state) : M unit :=
  fun s => (Ok tt, {| globals := globals s; session := f (session s) |}).

Notation "x <~ m ;; k" := (mbind m (fun x => k))
  (at level 61, m at next level, right associativity).
Notation "m ;;; k" := (mbind m (fun _ => k))
  (at level 61, right associativity).

(** [now] is the string [datetime.now().strftime('%Y-%m-%d')]. *)
Definition calculate (now : string) (i : inputs) : M unit :=
  t <~ eval (transport_emissions i) ;;
  assign "transport_emissions" t ;;;
  e <~ eval (energy_emissions i) ;;
  assign "energy_emissions" e ;;;
  d <~ eval (diet_emissions i) ;;
  assign "diet_emissions" d ;;;
  c <~ eval (consumption_emissions i) ;;
  assign "consumption_emissions" c ;;;
  w <~ eval (waste_emissions i) ;;
  assign "waste_emissions" w ;;;
  let tot := sum_emissions t e d c w in
  assign "total_emissions" tot ;;;
  modify_session (update_session now t e d c w tot).

(** One press of the button: the script is rerun, so its variables start
    unassigned; the session is the one kept by Streamlit. *)
Definition press_calculate (now : string) (i : inputs) (s : session_state)
    : outcome unit * state :=
  calculate now i {| globals := []; session := s |}.

(** ** Comparison with the world average (lines 326-327)

    The results, the recommendations and the comparisons below are
    displayed only once a calculation has stored a positive total (lines
    292 and 444); the functions give what is displayed then. *)

Definition world_average : number := PyInt 4700.

Definition percentage_diff_world (s : session_state) : outcome number :=
  q <- py_truediv (py_sub (total_emissions s) world_average) world_average ;;
  Ok (py_mul q (PyInt 100)).

(** ** Focus area and recommendations (lines 356-401) *)

Definition categories : list string :=
  ["transport"; "home_energy"; "diet"; "consumption"; "waste"]%string.

(** [st.session_state.emissions_data[cat]] for the keys that hold numbers
    (the remaining key, ['date'], holds strings and is never looked up by
    name of category). *)
Definition column (h : history) (cat : string) : outcome (list number) :=
  getitem [ ("transport", transport h); ("home_energy", home_energy h);
            ("diet", diet h); ("consumption", consumption h);
            ("waste", waste h); ("total", total h) ]%string cat.

(** [l[-1]]. *)
Definition last_item {X : Type} (l : list X) : outcome X :=
  match rev l with
  | [] => Raise IndexError
  | x :: _ => Ok x
  end.

Fixpoint latest_values (h : history) (cats : list string) : outcome (list number) :=
  match cats with
  | [] => Ok []
  | cat :: cats' =>
      l <- column h cat ;;
      x <- last_item l ;;
      xs <- latest_values h cats' ;;
      Ok (x :: xs)
  end.

(** [max(l)] keeps the first of the greatest elements: the candidate is
    replaced only by a strictly greater one. *)
Definition py_max (x : number) (l : list number) : number :=
  fold_left (fun m y => if py_gt y m then y else m) l x.

(** [l.index(v)]: position of the first element equal to [v]. *)
Fixpoint py_index (v : number) (l : list number) : outcome nat :=
  match l with
  | [] => Raise ValueError
  | x :: l' => if py_eq x v then Ok O else (n <- py_index v l' ;; Ok (S n))
  end.

Definition highest_category_index (emissions : list number) : outcome nat :=
  match emissions with
  | [] => Raise IndexError
  | x :: l => py_index (py_max x l) emissions
  end.

Definition list_item {X : Type} (l : list X) (n : nat) : outcome X :=
  match nth_error l n with
  | Some x => Ok x
  | None => Raise IndexError
  end.

Definition highest_category (s : session_state) : outcome string :=
  emissions <- latest_values (emissions_data s) categories ;;
  n <- highest_category_index emissions ;;
  list_item categories n.

Definition recommendations : list (string * list string) :=
  [ ("transport",
     [ "Consider carpooling or using public transportation more frequently";
       "If possible, work from home a few days a week to reduce commute emissions";
       "For short distances, consider walking or cycling instead of driving";
       "If you're in the market for a new vehicle, consider electric or hybrid options" ]);
    ("home_energy",
     [ "Switch to LED light bulbs throughout your home";
       "Improve home insulation to reduce heating/cooling needs";
       "Consider investing in renewable energy sources like solar panels";
       "Unplug electronics when not in use to avoid phantom energy usage" ]);
    ("diet",
     [ "Try to incorporate more plant-based meals into your diet";
       "Buy more locally produced and seasonal foods";
       "Plan meals to reduce food waste";
       "Compost food scraps instead of sending them to landfill" ]);
    ("consumption",
     [ "Before buying new items, consider if you can repair, borrow, or buy second-hand";
       "Invest in quality items that will last longer, even if they cost more initially";
       "Recycle as much as possible and properly dispose of electronics";
       "Support companies with sustainable practices and certifications" ]);
    ("waste",
     [ "Start composting food scraps and yard waste";
       "Switch to reusable alternatives for common disposable items";
       "Buy products with minimal or recyclable packaging";
       "Participate in local recycling programs and ensure you're recycling correctly" ]) ]%string.

(** The focus area shown to the user and its list of advice. *)
Definition focus_area (s : session_state) : outcome (string * list string) :=
  cat <- highest_category s ;;
  recs <- getitem recommendations cat ;;
  Ok (cat, recs).

(** ** The reference dataset (lines 429-584)

    One [row] per line of the CSV file, with the [Year] derived from the
    date.  The numeric columns are numpy [float64]: their arithmetic is the
    carrier's, and a division by zero raises nothing. *)

Record row := {
  Country : string;
  Year : Z;
  Region : string;
  Metric_Tons_Per_Capita : F;
  Kilotons_of_Co2 : F
}.

Definition DataFrame : Type := list row.

(** [df.sort_values(...)] as a stable insertion sort: [before a b] tells
    that [a] may stay in front of [b], and rows with equal keys keep the
    order of the frame.  (pandas sorts with quicksort by default, which may
    order rows with equal keys differently; what is proved below of a
    sorted frame rests only on its being a sorted permutation of the
    rows.) *)
Fixpoint insert_row (before : row -> row -> bool) (r : row) (l : list row) : list row :=
  match l with
  | [] => [r]
  | x :: l' => if before r x then r :: x :: l' else x :: insert_row before r l'
  end.

Fixpoint sort_values (before : row -> row -> bool) (l : list row) : list row :=
  match l with
  | [] => []
  | r :: l' => insert_row before r (sort_values before l')
  end.

Definition by_year_descending (a b : row) : bool := Year b <=? Year a.

Definition by_per_capita_descending (a b : row) : bool :=
  negb (f_ltb (Metric_Tons_Per_Capita a) (Metric_Tons_Per_Capita b)).

(** Line 457. *)
Definition country_data (emissions_df : DataFrame) (selected_country : string) : DataFrame :=
  sort_values by_year_descending
    (filter (fun r => String.eqb (Country r) selected_country) emissions_df).

(** [country_data.iloc[0]], under the guard [not country_data.empty] of
    line 459. *)
Definition latest_record (emissions_df : DataFrame) (selected_country : string)
    : option row :=
  match country_data emissions_df selected_country with
  | [] => None
  | r :: _ => Some r
  end.

(** Line 461. *)
Definition latest_emissions_per_capita (r : row) : F :=
  f_mul (Metric_Tons_Per_Capita r) (f_of_Z 1000).

(** Line 473: the operands are [float64], so is the result. *)
Definition percentage_diff (total_emissions : number) (reference : F) : F :=
  f_mul (f_div (f_sub (to_float total_emissions) reference) reference) (f_of_Z 100).

(** Lines 456-474 together: the latest year of the selected country, the
    reference in kg and the difference shown; [None] when the country has
    no row (nothing is displayed). *)
Definition country_comparison (emissions_df : DataFrame) (selected_country : string)
    (s : session_state) : option (Z * F * F) :=
  match latest_record emissions_df selected_country with
  | None => None
  | Some r =>
      let reference := latest_emissions_per_capita r in
      Some (Year r, reference, percentage_diff (total_emissions s) reference)
  end.

(** Lines 522-524: the rows of the year by decreasing per-capita value,
    indexed from 1. *)
Definition global_data (emissions_df : DataFrame) (latest_year : Z) : list (Z * row) :=
  let sorted :=
    sort_values by_per_capita_descending
      (filter (fun r => Year r =? latest_year) emissions_df) in
  combine (map Z.of_nat (seq 1 (length sorted))) sorted.

(** Line 527: the index of the first row of the country. *)
Fixpoint country_rank (ranking : list (Z * row)) (selected_country : string) : outcome Z :=
  match ranking with
  | [] => Raise IndexError
  | (k, r) :: ranking' =>
      if String.eqb (Country r) selected_country then Ok k
      else country_rank ranking' selected_country
  end.

Definition total_countries (ranking : list (Z * row)) : Z := Z.of_nat (length ranking).

(** Lines 551 and 577: one cell of the pivot of the sums of kilotons by
    year and region; a pair without rows is a missing cell ([NaN]). *)
Definition region_cell (emissions_df : DataFrame) (year : Z) (region : string)
    : option F :=
  match filter (fun r => (Year r =? year) && String.eqb (Region r) region) emissions_df with
  | [] => None
  | rows => Some (fold_left f_add (map Kilotons_of_Co2 rows) (f_of_Z 0))
  end.

(** Lines 570-571. *)
Definition earliest_year (emissions_df : DataFrame) : option Z :=
  match map Year emissions_df with
  | [] => None
  | y :: ys => Some (fold_left Z.min ys y)
  end.

Definition latest_year (emissions_df : DataFrame) : option Z :=
  match map Year emissions_df with
  | [] => None
  | y :: ys => Some (fold_left Z.max ys y)
  end.

(** Line 578 for one region: [(latest / earliest - 1) * 100]; a missing
    cell gives a missing result. *)
Definition growth_pct (latest earliest : F) : F :=
  f_mul (f_sub (f_div latest earliest) (f_of_Z 1)) (f_of_Z 100).

Definition region_growth_pct (emissions_df : DataFrame) (region : string) : option F :=
  match earliest_year emissions_df, latest_year emissions_df with
  | Some y0, Some y1 =>
      match region_cell emissions_df y1 region, region_cell emissions_df y0 region with
      | Some l, Some e => Some (growth_pct l e)
      | _, _ => None
      end
  | _, _ => None
  end.

(** ** The values the widgets offer (lines 48, 77, 93, 112, 121, 139) *)

Definition transport_mode_options : list string :=
  [ "Car (Gasoline)"; "Car (Diesel)"; "Car (Electric)"; "Car (Hybrid)";
    "Public Bus"; "Train/Subway"; "Bicycle"; "Walking"; "Motorcycle" ]%string.

Definition heating_type_options : list string :=
  [ "Natural Gas"; "Oil"; "Electric"; "Heat Pump"; "Wood"; "Coal" ]%string.

Definition diet_type_options : list string :=
  [ "Heavy Meat Eater"; "Regular Meat Eater"; "Low Meat Eater"; "Pescatarian";
    "Vegetarian"; "Vegan" ]%string.

Definition clothing_spending_options : list string :=
  [ "Very Low"; "Low"; "Average"; "High"; "Very High" ]%string.

Definition recycled_items_options : list string :=
  [ "Paper"; "Plastic"; "Glass"; "Metal"; "Electronics" ]%string.

Definition zero_waste_options : list string :=
  [ "None"; "Minimal"; "Moderate"; "Significant"; "Zero-waste lifestyle" ]%string.

(** The enum fields hold values the widgets offer. *)
Record offered (i : inputs) : Prop := {
  offered_transport_mode : In (transport_mode i) transport_mode_options;
  offered_heating_type : In (heating_type i) heating_type_options;
  offered_diet_type : In (diet_type i) diet_type_options;
  offered_clothing_spending : In (clothing_spending i) clothing_spending_options;
  offered_zero_waste : In (zero_waste i) zero_waste_options
}.

(** The same inputs with another fuel efficiency. *)
Definition with_fuel_efficiency (x : F) (i : inputs) : inputs :=
  {| transport_mode := transport_mode i;
     daily_distance := daily_distance i;
     fuel_efficiency := x;
     flight_short := flight_short i;
     flight_medium := flight_medium i;
     flight_long := flight_long i;
     electricity_kwh := electricity_kwh i;
     renewable_percentage := renewable_percentage i;
     heating_type := heating_type i;
     heating_usage := heating_usage i;
     has_ac := has_ac i;
     ac_hours := ac_hours i;
     diet_type := diet_type i;
     local_food := local_food i;
     organic_food := organic_food i;
     food_waste := food_waste i;
     processed_food := processed_food i;
     clothing_spending := clothing_spending i;
     electronics_yearly := electronics_yearly i;
     recycled_items := recycled_items i;
     second_hand := second_hand i;
     waste_weekly := waste_weekly i;
     composting := composting i;
     recycling_rate := recycling_rate i;
     zero_waste := zero_waste i |}.

(** ** Unknown keys

    A key is unknown to a lookup when the dictionary indexed by it has no
    such key.  The heating type ["Electric"] is never looked up itself
    (line 231 replaces it by ["Electric Heating"]). *)

Definition known (ks : list string) (k : string) : bool :=
  existsb (String.eqb k) ks.

Definition table_keys (t : string) : list string :=
  match nested_table t with
  | Ok d => keys d
  | Raise _ => []
  end.

Definition unknown_transport_mode (i : inputs) : bool :=
  negb (known (keys emission_factors) (transport_mode i)).

Definition unknown_heating_type (i : inputs) : bool :=
  negb (String.eqb (heating_type i) "Electric")
  && negb (known (keys emission_factors) (heating_type i)).

Definition unknown_diet_type (i : inputs) : bool :=
  negb (known (keys emission_factors) (diet_type i)).

Definition unknown_clothing_spending (i : inputs) : bool :=
  negb (known (table_keys "Clothing Spending") (clothing_spending i)).

Definition unknown_zero_waste (i : inputs) : bool :=
  negb (known (table_keys "Zero Waste Efforts") (zero_waste i)).


(** The keys of [i] that some lookup does not know. *)
Definition unknown_keys (i : inputs) : list string :=
  (if unknown_transport_mode i then [transport_mode i] else [])
  ++ (if unknown_heating_type i then [heating_type i] else [])
  ++ (if unknown_diet_type i then [diet_type i] else [])
  ++ (if unknown_clothing_spending i then [clothing_spending i] else [])
  ++ (if unknown_zero_waste i then [zero_waste i] else []).

(** An exception due to a key: the [KeyError] of an unknown key, or the
    [TypeError] of a nested table used as a number. *)
Definition key_failure (i : inputs) (e : exn) : Prop :=
  e = TypeError \/ exists k, e = KeyError k /\ In k (unknown_keys i).

End Engine.

Arguments number : clear implicits.
Arguments pyval : clear implicits.
Arguments inputs : clear implicits.
Arguments history : clear implicits.
Arguments session_state : clear implicits.
Arguments state : clear implicits.
Arguments M : clear implicits.
Arguments row : clear implicits.
Arguments DataFrame : clear implicits.

(** ** Profiles that are valid (data model of the engine)

    Orders are stated on the exact carrier.  The bounds are the ones the
    widgets enforce: percentages are sliders from 0 to 100, counts and
    weights have [min_value] 0, the fuel efficiency has [min_value] 0.1,
    and the recycled items are a selection without repetition among five
    options. *)

Definition percentage (z : Z) : Prop := 0 <= z <= 100.

Record valid_profile (i : inputs Q) : Prop := {
  valid_enums : offered i;
  valid_daily_distance : (0 <= daily_distance i)%Q;
  valid_fuel_efficiency : (0 < fuel_efficiency i)%Q;
  valid_flight_short : 0 <= flight_short i;
  valid_flight_medium : 0 <= flight_medium i;
  valid_flight_long : 0 <= flight_long i;
  valid_electricity_kwh : 0 <= electricity_kwh i;
  valid_renewable_percentage : percentage (renewable_percentage i);
  valid_heating_usage : 0 <= heating_usage i;
  valid_ac_hours : 0 <= ac_hours i;
  valid_local_food : percentage (local_food i);
  valid_organic_food : percentage (organic_food i);
  valid_food_waste : percentage (food_waste i);
  valid_processed_food : percentage (processed_food i);
  valid_electronics_yearly : 0 <= electronics_yearly i;
  valid_recycled_items :
    NoDup (recycled_items i) /\ incl (recycled_items i) recycled_items_options;
  valid_second_hand : percentage (second_hand i);
  valid_waste_weekly : (0 <= waste_weekly i)%Q;
  valid_recycling_rate : percentage (recycling_rate i)
}.

(** ** A sample profile

    The default values of the widgets, with the given enum keys: gasoline
    car, 10 km a day, 300 kWh, natural gas, regular meat eater and so on
    (scenario A of the specification when the packaging effort is
    ["None"]). *)

Definition sample_profile {F : Type} {ops : FloatOps F}
    (heating zero_waste_effort : string) : inputs F :=
  {| transport_mode := "Car (Gasoline)";
     daily_distance := f_of_Z 10;
     fuel_efficiency := f_of_Z 8;
     flight_short := 0;
     flight_medium := 0;
     flight_long := 0;
     electricity_kwh := 300;
     renewable_percentage := 0;
     heating_type := heating;
     heating_usage := 100;
     has_ac := false;
     ac_hours := 0;
     diet_type := "Regular Meat Eater";
     local_food := 20;
     organic_food := 20;
     food_waste := 15;
     processed_food := 30;
     clothing_spending := "Average";
     electronics_yearly := 1;
     recycled_items := [];
     second_hand := 10;
     waste_weekly := f_of_Z 10;
     composting := false;
     recycling_rate := 30;
     zero_waste := zero_waste_effort |}.

Definition scenario_A {F : Type} {ops : FloatOps F} : inputs F :=
  sample_profile "Natural Gas" "None".


(** ** Sample data *)

Definition sample_session {F : Type} {ops : FloatOps F} : session_state F :=
  session (snd (press_calculate "2024-05-01" scenario_A initial_session)).

(** A few rows in the format of the dataset (the values are made up). *)
Definition sample_dataset {F : Type} {ops : FloatOps F} : DataFrame F :=
  [ {| Country := "India"; Year := 1990; Region := "Asia";
       Metric_Tons_Per_Capita := f_div (f_of_Z 7) (f_of_Z 10);
       Kilotons_of_Co2 := f_of_Z 600000 |};
    {| Country := "Qatar"; Year := 1990; Region := "Asia";
       Metric_Tons_Per_Capita := f_of_Z 25;
       Kilotons_of_Co2 := f_of_Z 12000 |};
    {| Country := "France"; Year := 1990; Region := "Europe";
       Metric_Tons_Per_Capita := f_of_Z 6;
       Kilotons_of_Co2 := f_of_Z 350000 |};
    {| Country := "India"; Year := 2019; Region := "Asia";
       Metric_Tons_Per_Capita := f_div (f_of_Z 18) (f_of_Z 10);
       Kilotons_of_Co2 := f_of_Z 2400000 |};
    {| Country := "Qatar"; Year := 2019; Region := "Asia";
       Metric_Tons_Per_Capita := f_of_Z 32;
       Kilotons_of_Co2 := f_of_Z 90000 |};
    {| Country := "France"; Year := 2019; Region := "Europe";
       Metric_Tons_Per_Capita := f_div (f_of_Z 45) (f_of_Z 10);
       Kilotons_of_Co2 := f_of_Z 300000 |} ]%string.

(** A country recorded with zeros: no emission at all in 1990, and a
    per-capita value that rounds to 0 in 2019. *)
Definition zero_dataset {F : Type} {ops : FloatOps F} : DataFrame F :=
  [ {| Country := "Tuvalu"; Year := 1990; Region := "Oceania";
       Metric_Tons_Per_Capita := f_of_Z 0;
       Kilotons_of_Co2 := f_of_Z 0 |};
    {| Country := "Tuvalu"; Year := 2019; Region := "Oceania";
       Metric_Tons_Per_Capita := f_of_Z 0;
       Kilotons_of_Co2 := f_of_Z 5 |} ]%string.

(** ** Successive presses and what is displayed after them

    Streamlit reruns the script at every interaction and keeps the session
    state between the runs; a run stopped by an exception keeps the session
    as it was at that point. *)

Section Display.

Context {F : Type} {ops : FloatOps F}.

(** The session after one press, with the date of the press. *)
Definition press (s : session_state F) (p : string * inputs F) : session_state F :=
  session (snd (press_calculate (fst p) (snd p) s)).

Definition presses (l : list (string * inputs F)) (s : session_state F)
    : session_state F :=
  fold_left press l s.

(** Does the press return? *)
Definition returns (s : session_state F) (p : string * inputs F) : bool :=
  match fst (press_calculate (fst p) (snd p) s) with
  | Ok _ => true
  | Raise _ => false
  end.

Fixpoint count_returns (l : list (string * inputs F)) (s : session_state F) : nat :=
  match l with
  | [] => O
  | p :: l' => ((if returns s p then 1 else 0) + count_returns l' (press s p))%nat
  end.

(** The seven lists have one length, and the stored total is the last
    total recorded (the initial 0 before any calculation). *)
Definition consistent (s : session_state F) : Prop :=
  let h := emissions_data s in
  length (transport h) = length (date h) /\
  length (home_energy h) = length (date h) /\
  length (diet h) = length (date h) /\
  length (consumption h) = length (date h) /\
  length (waste h) = length (date h) /\
  length (total h) = length (date h) /\
  match last_item (total h) with
  | Ok x => total_emissions s = x
  | Raise _ => total_emissions s = PyInt 0
  end.

(** The table entry of a key is a number. *)
Definition numeric_key (k : string) : bool :=
  match getitem (@emission_factors F ops) k with
  | Ok (VNum _) => true
  | _ => false
  end.

(** The inputs for which no lookup of the handler fails. *)
Definition accepted (i : inputs F) : bool :=
  numeric_key (transport_mode i)
  && numeric_key (if String.eqb (heating_type i) "Electric"
                  then "Electric Heating"%string else heating_type i)
  && numeric_key (diet_type i)
  && known (@table_keys F ops "Clothing Spending") (clothing_spending i)
  && known (@table_keys F ops "Zero Waste Efforts") (zero_waste i).

(** Line 292 (and 444): the results are displayed when the stored total is
    positive. *)
Definition results_shown (s : session_state F) : bool :=
  py_gt (total_emissions s) (PyInt 0).

(** Lines 301-307: the latest value of each category, for the pie chart. *)
Definition latest_data (s : session_state F) : outcome (list (number F)) :=
  latest_values (emissions_data s) categories.

(** [abs(x)] on a float, from the operations of the carrier: the opposite
    of a negative number, the positive zero for a zero, the number itself
    otherwise. *)
Definition f_abs (x : F) : F :=
  if f_ltb x (f_of_Z 0) then f_sub (f_of_Z 0) x
  else if f_eqb x (f_of_Z 0) then f_of_Z 0
  else x.

Definition py_abs (n : number F) : number F :=
  match n with
  | PyInt z => PyInt (Z.abs z)
  | PyFloat x => PyFloat (f_abs x)
  end.

(** Lines 329-332: the number and the word displayed beside "Compared to
    World Average" (the number is then printed with one decimal). *)
Definition world_metric (s : session_state F) : outcome (number F * string) :=
  percentage_diff <- percentage_diff_world s ;;
  if py_gt percentage_diff (PyInt 0) then Ok (percentage_diff, "higher"%string)
  else Ok (py_abs percentage_diff, "lower"%string).

(** Line 474: the number and the word displayed as "Difference" with the
    country; the number is displayed with its sign. *)
Definition country_metric (percentage_diff : F) : F * string :=
  (percentage_diff,
   if f_ltb (f_of_Z 0) percentage_diff then "higher"%string else "lower"%string).

End Display.

(** ** More of the dataset section (lines 453, 497-544, 569-584) *)

Section Dataset.

Context {F : Type} {ops : FloatOps F}.

(** [Series.unique()]: the values in the order of their first occurrence. *)
Fixpoint unique (l : list string) : list string :=
  match l with
  | [] => []
  | x :: l' => x :: filter (fun y => negb (String.eqb y x)) (unique l')
  end.

(** [sorted(...)] on strings: the order of Python on [str] is the
    lexicographic order of the code points, which is the order of the
    bytes of their UTF-8 encodings. *)
Fixpoint insert_string (x : string) (l : list string) : list string :=
  match l with
  | [] => [x]
  | y :: l' => if String.leb x y then x :: y :: l' else y :: insert_string x l'
  end.

Definition sorted_strings (l : list string) : list string :=
  fold_right insert_string [] l.

(** Line 453: the choices of the country selector. *)
Definition countries (emissions_df : DataFrame F) : list string :=
  sorted_strings (unique (map Country emissions_df)).

(** Lines 497-503: the rows of the region of the selected country in its
    latest year, by decreasing per-capita value. *)
Definition region_data (emissions_df : DataFrame F) (country_region : string)
    (latest_year : Z) : DataFrame F :=
  sort_values by_per_capita_descending
    (filter (fun r => String.eqb (Region r) country_region && (Year r =? latest_year))
            emissions_df).

(** Lines 541-542. *)
Definition lower_bound (country_rank : Z) : Z := Z.max 1 (country_rank - 2).

Definition upper_bound (total_countries country_rank : Z) : Z :=
  Z.min total_countries (country_rank + 2).

(** [global_data.loc[lower_bound:upper_bound]]: the rows whose index lies
    between the two labels, both included. *)
Definition loc_slice (lo hi : Z) (ranking : list (Z * row F)) : list (Z * row F) :=
  filter (fun kr => (lo <=? fst kr) && (fst kr <=? hi)) ranking.

(** Lines 533-544: the table displayed first (the top 10, or the top 5)
    and, for a country beyond the tenth rank, the table of the countries
    around it. *)
Definition ranking_tables (ranking : list (Z * row F)) (country_rank : Z)
    : list (Z * row F) * list (Z * row F) :=
  if country_rank <=? 10 then (firstn 10 ranking, [])
  else (firstn 5 ranking,
        loc_slice (lower_bound country_rank)
                  (upper_bound (total_countries ranking) country_rank) ranking).

(** Lines 522-544 for the selected country: its rank, the number of rows
    of the year and the tables. *)
Definition global_rankings (emissions_df : DataFrame F) (selected_country : string)
    (latest_year : Z) : outcome (Z * Z * (list (Z * row F) * list (Z * row F))) :=
  let ranking := global_data emissions_df latest_year in
  country_rank <- country_rank ranking selected_country ;;
  Ok (country_rank, total_countries ranking, ranking_tables ranking country_rank).

(** Line 569: the total of the kilotons of a year. *)
Definition total_by_year (emissions_df : DataFrame F) (year : Z) : F :=
  fold_left f_add
    (map Kilotons_of_Co2 (filter (fun r => Year r =? year) emissions_df))
    (f_of_Z 0).

(** Line 572. *)
Definition total_growth (emissions_df : DataFrame F) : option F :=
  match earliest_year emissions_df, latest_year emissions_df with
  | Some y0, Some y1 =>
      Some (growth_pct (total_by_year emissions_df y1) (total_by_year emissions_df y0))
  | _, _ => None
  end.

(** The columns of the pivot of line 577: the regions, sorted. *)
Definition regions (emissions_df : DataFrame F) : list string :=
  sorted_strings (unique (map Region emissions_df)).

(** Line 578: the growth of every region, a missing value where a cell of
    the pivot is missing. *)
Definition region_growth_series (emissions_df : DataFrame F)
    : list (string * option F) :=
  map (fun region => (region, region_growth_pct emissions_df region))
      (regions emissions_df).

(** A value that [idxmax] and [idxmin] skip: a missing cell or a NaN. *)
Definition valid_value (v : option F) : option F :=
  match v with
  | Some x => if f_eqb x x then Some x else None
  | None => None
  end.

(** Lines 579-580: [idxmax()] and [idxmin()] give the label of the first
    greatest (least) value among the valid ones; [None] stands for a series
    without valid value, on which the script cannot name a region. *)
Fixpoint idxmax (series : list (string * option F)) : option (string * F) :=
  match series with
  | [] => None
  | (label, v) :: series' =>
      match valid_value v, idxmax series' with
      | Some x, Some (label', x') =>
          if f_ltb x x' then Some (label', x') else Some (label, x)
      | Some x, None => Some (label, x)
      | None, best => best
      end
  end.

Fixpoint idxmin (series : list (string * option F)) : option (string * F) :=
  match series with
  | [] => None
  | (label, v) :: series' =>
      match valid_value v, idxmin series' with
      | Some x, Some (label', x') =>
          if f_ltb x' x then Some (label', x') else Some (label, x)
      | Some x, None => Some (label, x)
      | None, best => best
      end
  end.

Definition fastest_growing (emissions_df : DataFrame F) : option (string * F) :=
  idxmax (region_growth_series emissions_df).

Definition fastest_declining (emissions_df : DataFrame F) : option (string * F) :=
  idxmin (region_growth_series emissions_df).

(** Line 583: the sentence on the fastest declining region is written
    only when its growth is negative. *)
Definition declining_shown (emissions_df : DataFrame F) : bool :=
  match fastest_declining emissions_df with
  | Some (_, x) => f_ltb x (f_of_Z 0)
  | None => false
  end.

End Dataset.

(** ** More sample data *)

(** A cyclist without flights, with fully renewable electricity and no
    modifier of the diet. *)
Definition cyclist_profile {F : Type} {ops : FloatOps F}
    (distance : Z) (compost : bool) : inputs F :=
  {| transport_mode := "Bicycle";
     daily_distance := f_of_Z distance;
     fuel_efficiency := f_of_Z 8;
     flight_short := 0;
     flight_medium := 0;
     flight_long := 0;
     electricity_kwh := 300;
     renewable_percentage := 100;
     heating_type := "Heat Pump";
     heating_usage := 100;
     has_ac := true;
     ac_hours := 2;
     diet_type := "Vegan";
     local_food := 0;
     organic_food := 0;
     food_waste := 0;
     processed_food := 0;
     clothing_spending := "Low";
     electronics_yearly := 0;
     recycled_items := ["Paper"; "Glass"];
     second_hand := 50;
     waste_weekly := f_of_Z 4;
     composting := compost;
     recycling_rate := 60;
     zero_waste := "Moderate" |}%string.

(** The rows of 2019 alone. *)
Definition single_year_dataset {F : Type} {ops : FloatOps F} : DataFrame F :=
  filter (fun r => Year r =? 2019) sample_dataset.

(** * Properties *)

(** Splits [H : In x [a; b; ...]] into one goal per element, with
    [H : x = a], [H : x = b], ... *)
Ltac pick H :=
  simpl in H;
  repeat (destruct H as [H|H]; [symmetry in H|]);
  [..|contradiction].

Section EngineFacts.

Context {F : Type} {ops : FloatOps F}.

Implicit Types (i : inputs F) (s : session_state F).

(** ** Lookups *)

Lemma known_In (ks : list string) (k : string) : known ks k = true <-> In k ks.
Proof.
  unfold known. rewrite existsb_exists. split.
  - intros [x [I E]]. apply String.eqb_eq in E. now subst.
  - intros I. exists k. split; [exact I|apply String.eqb_refl].
Qed.

Lemma getitem_raises (V : Type) (d : list (string * V)) (k : string) (e : exn) :
  getitem d k = Raise e -> e = KeyError k /\ known (keys d) k = false.
Proof.
  induction d as [|[k' v] d IH]; simpl.
  - intros E. inversion E. auto.
  - destruct (String.eqb k k') eqn:K; [discriminate|].
    intros E. destruct (IH E) as [-> N]. split; [reflexivity|exact N].
Qed.


(** ** Transport *)

(** C1 (commute part of the transport estimator).  For each of the nine
    transport modes the table has a per-km factor [f], and the annual
    commute emissions are
    [(daily_distance * fuel_efficiency / 100) * f * 365] for
    ["Car (Electric)"] and [daily_distance * f * 365] for every other mode,
    car or not; for those the entered fuel efficiency has no influence. *)
Theorem commute_emissions_asymmetry i :
  In (transport_mode i) transport_mode_options ->
  exists f : number F,
    factor (transport_mode i) = Ok f /\
    commute_emissions i =
      Ok (PyFloat
            (if String.eqb (transport_mode i) "Car (Electric)"
             then f_mul (f_mul (f_div (f_mul (daily_distance i) (fuel_efficiency i))
                                      (f_of_Z 100))
                               (to_float f))
                        (f_of_Z 365)
             else f_mul (f_mul (daily_distance i) (to_float f)) (f_of_Z 365))) /\
    (transport_mode i <> "Car (Electric)"%string ->
     forall x, commute_emissions (with_fuel_efficiency x i) = commute_emissions i).
Proof.
  intros Hm. unfold commute_emissions, with_fuel_efficiency. simpl.
  pick Hm; rewrite Hm; eexists; (split; [reflexivity|]);
    (split; [reflexivity|]); intros N x; try reflexivity.
  now elim N.
Qed.

(** ** What a lookup can raise *)

Lemma factor_raises (k : string) (e : exn) :
  factor k = Raise e ->
  e = TypeError \/ (e = KeyError k /\ known (keys emission_factors) k = false).
Proof.
  unfold factor. destruct (getitem emission_factors k) as [v|e'] eqn:G; simpl.
  - destruct v; simpl; [discriminate|]. intros E. inversion E. now left.
  - intros E. inversion E. subst e'. right. exact (getitem_raises _ _ G).
Qed.


Lemma subfactor_raises (t k : string) (d : list (string * number F)) (e : exn) :
  nested_table t = Ok d ->
  subfactor t k = Raise e ->
  e = KeyError k /\ known (table_keys t) k = false.
Proof.
  intros T. unfold subfactor, table_keys. rewrite T. simpl.
  apply getitem_raises.
Qed.


Lemma heating_factor_raises i (e : exn) :
  heating_factor i = Raise e ->
  e = TypeError \/ (e = KeyError (heating_type i) /\ unknown_heating_type i = true).
Proof.
  unfold heating_factor, unknown_heating_type.
  destruct (String.eqb (heating_type i) "Electric"); [discriminate|].
  intros E. destruct (factor_raises _ E) as [->|[-> N]]; [now left|right].
  now rewrite N.
Qed.

(** ** Each estimator either returns or raises for an unknown key *)

Lemma key_failure_transport i :
  unknown_transport_mode i = true -> In (transport_mode i) (unknown_keys i).
Proof. unfold unknown_keys. intros ->. now left. Qed.

Lemma key_failure_heating i :
  unknown_heating_type i = true -> In (heating_type i) (unknown_keys i).
Proof.
  unfold unknown_keys. intros ->.
  apply in_or_app. right. now left.
Qed.

Lemma key_failure_diet i :
  unknown_diet_type i = true -> In (diet_type i) (unknown_keys i).
Proof.
  unfold unknown_keys. intros ->.
  do 2 (apply in_or_app; right). now left.
Qed.

Lemma key_failure_clothing i :
  unknown_clothing_spending i = true -> In (clothing_spending i) (unknown_keys i).
Proof.
  unfold unknown_keys. intros ->.
  do 3 (apply in_or_app; right). now left.
Qed.

Lemma key_failure_zero_waste i :
  unknown_zero_waste i = true -> In (zero_waste i) (unknown_keys i).
Proof.
  unfold unknown_keys. intros ->.
  do 4 (apply in_or_app; right). now left.
Qed.

Lemma commute_emissions_raises i (e : exn) :
  commute_emissions i = Raise e ->
  e = TypeError \/ (e = KeyError (transport_mode i) /\ unknown_transport_mode i = true).
Proof.
  unfold commute_emissions, unknown_transport_mode.
  destruct (prefix "Car" (transport_mode i));
    [destruct (String.eqb (transport_mode i) "Car (Electric)")|];
    simpl; destruct (factor (transport_mode i)) as [f|e'] eqn:Fk; simpl;
    try discriminate;
    intros E; inversion E; subst e';
    (destruct (factor_raises _ Fk) as [->|[-> N]];
     [now left|right; split; [reflexivity|apply negb_true_iff; exact N]]).
Qed.

Lemma transport_emissions_raises i (e : exn) :
  transport_emissions i = Raise e ->
  e = TypeError \/ (e = KeyError (transport_mode i) /\ unknown_transport_mode i = true).
Proof.
  unfold transport_emissions.
  destruct (commute_emissions i) as [c|e'] eqn:C; simpl; [discriminate|].
  intros E. inversion E. subst e'. exact (commute_emissions_raises _ C).
Qed.


Lemma energy_emissions_raises i (e : exn) :
  energy_emissions i = Raise e ->
  e = TypeError \/ (e = KeyError (heating_type i) /\ unknown_heating_type i = true).
Proof.
  unfold energy_emissions. simpl.
  destruct (heating_factor i) as [hf|e'] eqn:Hf; simpl.
  - destruct (has_ac i); discriminate.
  - intros E. inversion E. subst e'. exact (heating_factor_raises _ Hf).
Qed.


Lemma diet_emissions_raises i (e : exn) :
  diet_emissions i = Raise e ->
  e = TypeError \/ (e = KeyError (diet_type i) /\ unknown_diet_type i = true).
Proof.
  unfold diet_emissions, unknown_diet_type.
  destruct (factor (diet_type i)) as [f|e'] eqn:Fk; simpl; [discriminate|].
  intros E. inversion E. subst e'.
  destruct (factor_raises _ Fk) as [->|[-> N]]; [now left|right].
  split; [reflexivity|apply negb_true_iff; exact N].
Qed.


Lemma consumption_emissions_raises i (e : exn) :
  consumption_emissions i = Raise e ->
  e = KeyError (clothing_spending i) /\ unknown_clothing_spending i = true.
Proof.
  unfold consumption_emissions, unknown_clothing_spending.
  destruct (subfactor "Clothing Spending" (clothing_spending i)) as [f|e'] eqn:Fk;
    simpl; [discriminate|].
  intros E. inversion E. subst e'.
  destruct (@subfactor_raises "Clothing Spending" _ _ _ eq_refl Fk) as [-> N].
  split; [reflexivity|apply negb_true_iff; exact N].
Qed.


Lemma waste_emissions_raises i (e : exn) :
  waste_emissions i = Raise e ->
  e = KeyError (zero_waste i) /\ unknown_zero_waste i = true.
Proof.
  unfold waste_emissions, unknown_zero_waste. simpl.
  destruct (subfactor "Zero Waste Efforts" (zero_waste i)) as [f|e'] eqn:Fk;
    simpl; [discriminate|].
  intros E. inversion E. subst e'.
  destruct (@subfactor_raises "Zero Waste Efforts" _ _ _ eq_refl Fk) as [-> N].
  split; [reflexivity|apply negb_true_iff; exact N].
Qed.


(** ** The estimators return a float for the values the widgets offer *)

Lemma transport_emissions_returns i :
  In (transport_mode i) transport_mode_options ->
  exists t : F, transport_emissions i = Ok (PyFloat t).
Proof.
  intros Hm. unfold transport_emissions, commute_emissions.
  pick Hm; rewrite Hm; eexists; reflexivity.
Qed.

Lemma energy_emissions_returns i :
  In (heating_type i) heating_type_options ->
  exists e : F, energy_emissions i = Ok (PyFloat e).
Proof.
  intros Hh. unfold energy_emissions, heating_factor.
  pick Hh; rewrite Hh; destruct (has_ac i); eexists; reflexivity.
Qed.

Lemma diet_emissions_returns i :
  In (diet_type i) diet_type_options ->
  exists d : F, diet_emissions i = Ok (PyFloat d).
Proof.
  intros Hd. unfold diet_emissions.
  pick Hd; rewrite Hd; eexists; reflexivity.
Qed.

Lemma consumption_emissions_returns i :
  In (clothing_spending i) clothing_spending_options ->
  exists c : F, consumption_emissions i = Ok (PyFloat c).
Proof.
  intros Hc. unfold consumption_emissions.
  pick Hc; rewrite Hc; eexists; reflexivity.
Qed.

Lemma waste_emissions_returns i :
  In (zero_waste i) zero_waste_options ->
  exists w : F, waste_emissions i = Ok (PyFloat w).
Proof.
  intros Hz. unfold waste_emissions.
  pick Hz; rewrite Hz; destruct (composting i); eexists; reflexivity.
Qed.

(** ** The button handler *)

Lemma press_calculate_returns now i s (t e d c w : number F) :
  transport_emissions i = Ok t ->
  energy_emissions i = Ok e ->
  diet_emissions i = Ok d ->
  consumption_emissions i = Ok c ->
  waste_emissions i = Ok w ->
  press_calculate now i s =
    (Ok tt,
     {| globals :=
          [ ("total_emissions", sum_emissions t e d c w);
            ("waste_emissions", w); ("consumption_emissions", c);
            ("diet_emissions", d); ("energy_emissions", e);
            ("transport_emissions", t) ]%string;
        session := update_session now t e d c w (sum_emissions t e d c w) s |}).
Proof.
  intros T E D C W.
  unfold press_calculate, calculate, mbind, eval, assign, modify_session.
  rewrite T, E, D, C, W. reflexivity.
Qed.

Lemma press_calculate_raises now i s (e : exn) (st : state F) :
  press_calculate now i s = (Raise e, st) ->
  session st = s /\
  (globals st = [] <-> transport_emissions i = Raise e) /\
  (transport_emissions i = Raise e \/ energy_emissions i = Raise e \/
   diet_emissions i = Raise e \/ consumption_emissions i = Raise e \/
   waste_emissions i = Raise e).
Proof.
  unfold press_calculate, calculate, mbind, eval, assign, modify_session.
  destruct (transport_emissions i) as [t|e1]; simpl.
  2:{ intros E. inversion E. subst. simpl. intuition. }
  destruct (energy_emissions i) as [e2|e2]; simpl.
  2:{ intros E. inversion E. subst. simpl. intuition discriminate. }
  destruct (diet_emissions i) as [d|e3]; simpl.
  2:{ intros E. inversion E. subst. simpl. intuition discriminate. }
  destruct (consumption_emissions i) as [c|e4]; simpl.
  2:{ intros E. inversion E. subst. simpl. intuition discriminate. }
  destruct (waste_emissions i) as [w|e5]; simpl.
  2:{ intros E. inversion E. subst. simpl. intuition discriminate. }
  discriminate.
Qed.



(** C5.  For inputs the widgets offer, one press of the button returns and
    appends exactly one element at the end of each of the seven lists of
    the history, leaving the earlier elements in place; a second press with
    the same inputs (at another date) appends the same five category values
    and the same total again, so that each list is two elements longer. *)
Theorem history_grows_by_one_record now now' i s :
  offered i ->
  exists (t e d c w tot : number F) (st st' : state F),
    let h := emissions_data s in
    press_calculate now i s = (Ok tt, st) /\
    emissions_data (session st) =
      {| date := date h ++ [now];
         transport := transport h ++ [t];
         home_energy := home_energy h ++ [e];
         diet := diet h ++ [d];
         consumption := consumption h ++ [c];
         waste := waste h ++ [w];
         total := total h ++ [tot] |} /\
    press_calculate now' i (session st) = (Ok tt, st') /\
    emissions_data (session st') =
      {| date := date h ++ [now; now'];
         transport := transport h ++ [t; t];
         home_energy := home_energy h ++ [e; e];
         diet := diet h ++ [d; d];
         consumption := consumption h ++ [c; c];
         waste := waste h ++ [w; w];
         total := total h ++ [tot; tot] |} /\
    length (total (emissions_data (session st))) = S (length (total h)) /\
    length (total (emissions_data (session st'))) = S (S (length (total h))).
Proof.
  intros [Hm Hh Hd Hc Hz].
  destruct (transport_emissions_returns _ Hm) as [t T].
  destruct (energy_emissions_returns _ Hh) as [e E].
  destruct (diet_emissions_returns _ Hd) as [d D].
  destruct (consumption_emissions_returns _ Hc) as [c C].
  destruct (waste_emissions_returns _ Hz) as [w W].
  do 6 eexists. do 2 eexists. cbv zeta.
  split; [apply (@press_calculate_returns now i s _ _ _ _ _ T E D C W)|].
  split; [reflexivity|].
  split; [apply (@press_calculate_returns now' i _ _ _ _ _ _ T E D C W)|].
  simpl. rewrite <- !app_assoc. simpl.
  split; [reflexivity|].
  rewrite !length_app. simpl. split; lia.
Qed.

(** ** Sorting a frame *)

Section Sorting.

Variable before : row F -> row F -> bool.

Let R (a b : row F) : Prop := before a b = true.

Hypothesis before_total : forall a b, before a b = true \/ before b a = true.
Hypothesis before_trans :
  forall a b c, before a b = true -> before b c = true -> before a c = true.

Lemma insert_row_perm (r : row F) (l : list (row F)) :
  Permutation (r :: l) (insert_row before r l).
Proof.
  induction l as [|x l IH]; simpl; [reflexivity|].
  destruct (before r x); [reflexivity|].
  rewrite perm_swap. now apply perm_skip.
Qed.

Lemma sort_values_perm (l : list (row F)) :
  Permutation l (sort_values before l).
Proof.
  induction l as [|r l IH]; simpl; [reflexivity|].
  rewrite <- insert_row_perm. now apply perm_skip.
Qed.

Lemma insert_row_sorted (r : row F) (l : list (row F)) :
  StronglySorted R l -> StronglySorted R (insert_row before r l).
Proof.
  induction 1 as [|x l S IH All]; simpl.
  - constructor; constructor.
  - destruct (before r x) eqn:B.
    + constructor; [constructor; assumption|].
      constructor; [exact B|].
      eapply Forall_impl; [|exact All].
      intros y Rxy. exact (before_trans B Rxy).
    + assert (Rxr : R x r) by (destruct (before_total x r); [assumption|congruence]).
      constructor; [exact IH|].
      apply (Permutation_Forall (insert_row_perm r l)).
      constructor; assumption.
Qed.

Lemma sort_values_sorted (l : list (row F)) :
  StronglySorted R (sort_values before l).
Proof.
  induction l as [|r l IH]; simpl; [constructor|].
  now apply insert_row_sorted.
Qed.

(** The first row of a sorted frame comes before every row of the frame. *)
Lemma sort_values_head (l : list (row F)) (r : row F) (rest : list (row F)) :
  sort_values before l = r :: rest ->
  In r l /\ forall r', In r' l -> r' = r \/ before r r' = true.
Proof.
  intros E. pose proof (sort_values_perm l) as P.
  pose proof (sort_values_sorted l) as S. rewrite E in P, S.
  split.
  - apply (Permutation_in _ (Permutation_sym P)). now left.
  - intros r' I. apply (Permutation_in _ P) in I. destruct I as [->|I]; [now left|].
    right. inversion S as [|? ? _ All]; subst.
    rewrite Forall_forall in All. exact (All _ I).
Qed.

End Sorting.

Lemma by_year_descending_total (a b : row F) :
  by_year_descending a b = true \/ by_year_descending b a = true.
Proof. unfold by_year_descending. rewrite !Z.leb_le. lia. Qed.

Lemma by_year_descending_trans (a b c : row F) :
  by_year_descending a b = true -> by_year_descending b c = true ->
  by_year_descending a c = true.
Proof. unfold by_year_descending. rewrite !Z.leb_le. lia. Qed.

(** ** Comparison with the country of the user *)

(** C10.  When the dataset has a row for the selected country, the
    comparison uses a row of that country whose year is the greatest of
    the country's years; the reference is that row's metric tons per
    capita multiplied by 1000, and the difference displayed is
    [(total - reference) / reference * 100] computed with that reference. *)
Theorem country_reference_is_latest_per_capita_times_1000
    (emissions_df : DataFrame F) (selected_country : string) s :
  (exists r0, In r0 emissions_df /\ Country r0 = selected_country) ->
  exists r : row F,
    In r emissions_df /\ Country r = selected_country /\
    (forall r', In r' emissions_df -> Country r' = selected_country ->
                Year r' <= Year r) /\
    let reference := f_mul (Metric_Tons_Per_Capita r) (f_of_Z 1000) in
    country_comparison emissions_df selected_country s =
      Some (Year r, reference,
            f_mul (f_div (f_sub (to_float (total_emissions s)) reference) reference)
                  (f_of_Z 100)).
Proof.
  intros [r0 [I0 C0]].
  unfold country_comparison, latest_record, country_data.
  set (rows := filter (fun r => String.eqb (Country r) selected_country) emissions_df).
  assert (Irows : forall r, In r rows <-> In r emissions_df /\ Country r = selected_country).
  { intros r. unfold rows. rewrite filter_In, String.eqb_eq. reflexivity. }
  destruct (sort_values by_year_descending rows) as [|r rest] eqn:E.
  - exfalso.
    assert (I : In r0 rows) by (apply Irows; auto).
    apply (Permutation_in _ (sort_values_perm by_year_descending rows)) in I.
    rewrite E in I. exact I.
  - destruct (@sort_values_head by_year_descending by_year_descending_total
                by_year_descending_trans rows r rest E)
      as [Ir Hmax].
    apply Irows in Ir. destruct Ir as [Ir Cr].
    exists r. repeat split; try assumption.
    intros r' I' C'.
    destruct (Hmax r') as [->|B]; [apply Irows; auto|lia|].
    unfold by_year_descending in B. now apply Z.leb_le in B.
Qed.

End EngineFacts.

(** ** On the exact carrier: signs and sums *)

Lemma Qnn_add (a b : Q) : (0 <= a -> 0 <= b -> 0 <= a + b)%Q.
Proof. intros. lra. Qed.

Lemma Qnn_inject (z : Z) : 0 <= z -> (0 <= inject_Z z)%Q.
Proof. intros Hz. now rewrite (Zle_Qle 0 z) in Hz. Qed.

Lemma Qpos_inject (z : Z) : 0 < z -> (0 < inject_Z z)%Q.
Proof. intros Hz. now rewrite (Zlt_Qlt 0 z) in Hz. Qed.

Lemma Qnn_div (a b : Q) : (0 <= a -> 0 < b -> 0 <= a / b)%Q.
Proof.
  intros Ha Hb. apply Qle_shift_div_l; [exact Hb|]. lra.
Qed.

(** [1 - r/k] for [0 <= r <= k]: the modifiers that reduce. *)
Lemma Qnn_one_minus (r k : Z) :
  0 <= r <= k -> 0 < k -> (0 <= inject_Z 1 - inject_Z r / inject_Z k)%Q.
Proof.
  intros Hr Hk.
  assert (inject_Z r / inject_Z k <= 1)%Q; [|change (inject_Z 1) with 1%Q; lra].
  apply Qle_shift_div_r; [now apply Qpos_inject|].
  rewrite Qmult_1_l. rewrite <- Zle_Qle. lia.
Qed.

(** [1 - n * 0.05] for at most twenty recycled categories. *)
Lemma Qnn_recycling (n : Z) :
  0 <= n <= 20 ->
  (0 <= inject_Z 1 - inject_Z n * (inject_Z 5 / inject_Z 100))%Q.
Proof.
  intros Hn.
  assert (inject_Z n <= 20)%Q by (change 20%Q with (inject_Z 20); rewrite <- Zle_Qle; lia).
  change (inject_Z 1) with 1%Q.
  setoid_replace (inject_Z 5 / inject_Z 100)%Q with (1 # 20)%Q by reflexivity.
  lra.
Qed.

Ltac nonneg :=
  unfold percentage in *;
  repeat match goal with
    | |- (0 <= inject_Z 1 - inject_Z _ / inject_Z _)%Q => apply Qnn_one_minus; lia
    | |- (0 <= inject_Z 1 - inject_Z _ * _)%Q => apply Qnn_recycling
    | |- (0 <= _ + _)%Q => apply Qnn_add
    | |- (0 <= _ * _)%Q => apply Qmult_le_0_compat
    | |- (0 <= _ / _)%Q => apply Qnn_div
    | |- (0 <= inject_Z _)%Q => apply Qnn_inject; lia
    | |- (0 < inject_Z _)%Q => apply Qpos_inject; lia
    | |- (0 <= _)%Q => assumption
    | |- (0 <= _)%Q => apply Qlt_le_weak; assumption
    end.

Ltac exact_carrier :=
  cbv [to_float py_add py_mul py_sub dec f_add f_mul f_sub f_div f_of_Z Q_ops].

Lemma transport_emissions_nonneg (i : inputs Q) :
  valid_profile i ->
  exists t : Q, transport_emissions i = Ok (PyFloat t) /\ (0 <= t)%Q.
Proof.
  intros [[Hm _ _ _ _] Hd Hf Hs Hme Hl _ _ _ _ _ _ _ _ _ _ _ _ _].
  unfold transport_emissions, commute_emissions.
  pick Hm; rewrite Hm; eexists; (split; [reflexivity|]); exact_carrier; nonneg.
Qed.

Lemma energy_emissions_nonneg (i : inputs Q) :
  valid_profile i ->
  exists e : Q, energy_emissions i = Ok (PyFloat e) /\ (0 <= e)%Q.
Proof.
  intros [[_ Hh _ _ _] _ _ _ _ _ Hk Hr Hu Ha _ _ _ _ _ _ _ _ _].
  unfold energy_emissions, heating_factor.
  pick Hh; rewrite Hh; destruct (has_ac i); eexists; (split; [reflexivity|]);
    exact_carrier; nonneg.
Qed.


Lemma recycled_items_at_most_five (l : list string) :
  NoDup l -> incl l recycled_items_options -> (length l <= 5)%nat.
Proof.
  intros N I. exact (NoDup_incl_length N I).
Qed.

Lemma consumption_emissions_nonneg (i : inputs Q) :
  valid_profile i ->
  exists c : Q, consumption_emissions i = Ok (PyFloat c) /\ (0 <= c)%Q.
Proof.
  intros [[_ _ _ Hc _] _ _ _ _ _ _ _ _ _ _ _ _ _ He [Hn Hi] Hs _ _].
  pose proof (recycled_items_at_most_five Hn Hi) as Hlen.
  unfold consumption_emissions.
  pick Hc; rewrite Hc; eexists; (split; [reflexivity|]); exact_carrier; nonneg; lia.
Qed.

Lemma waste_emissions_nonneg (i : inputs Q) :
  valid_profile i ->
  exists w : Q, waste_emissions i = Ok (PyFloat w) /\ (0 <= w)%Q.
Proof.
  intros [[_ _ _ _ Hz] _ _ _ _ _ _ _ _ _ _ _ _ _ _ _ _ Hw Hr].
  unfold waste_emissions.
  pick Hz; rewrite Hz; destruct (composting i); eexists; (split; [reflexivity|]);
    exact_carrier; nonneg.
Qed.


(** ** On the exact carrier: the greatest category *)

Lemma py_gt_spec (a b : number Q) :
  py_gt a b = true <-> (to_float b < to_float a)%Q.
Proof.
  destruct a as [x|x], b as [y|y]; simpl;
    try (rewrite negb_true_iff, <- not_true_iff_false, Qle_bool_iff;
         split; [apply Qnot_le_lt|apply Qlt_not_le]).
  rewrite Z.ltb_lt, Zlt_Qlt. reflexivity.
Qed.

Lemma py_eq_spec (a b : number Q) :
  py_eq a b = true <-> (to_float a == to_float b)%Q.
Proof.
  destruct a as [x|x], b as [y|y]; simpl; try apply Qeq_bool_iff.
  rewrite Z.eqb_eq. symmetry. apply inject_Z_injective.
Qed.

Lemma py_max_spec (l : list (number Q)) (x : number Q) :
  In (py_max x l) (x :: l) /\
  forall y, In y (x :: l) -> (to_float y <= to_float (py_max x l))%Q.
Proof.
  unfold py_max. revert x. induction l as [|z l IH]; intros x; simpl.
  - split; [now left|]. intros y [<-|[]]. apply Qle_refl.
  - destruct (IH (if py_gt z x then z else x)) as [I M]. split.
    + destruct I as [I|I]; [|now (right; right)].
      rewrite <- I. destruct (py_gt z x); [right; now left|now left].
    + assert (Hx : (to_float x <= to_float (if py_gt z x then z else x))%Q).
      { destruct (py_gt z x) eqn:G; [|apply Qle_refl].
        apply py_gt_spec in G. now apply Qlt_le_weak. }
      assert (Hz : (to_float z <= to_float (if py_gt z x then z else x))%Q).
      { destruct (py_gt z x) eqn:G; [apply Qle_refl|].
        apply Qnot_lt_le. intros L. apply py_gt_spec in L. congruence. }
      intros y [<-|[<-|I']].
      * eapply Qle_trans; [exact Hx|]. apply M. now left.
      * eapply Qle_trans; [exact Hz|]. apply M. now left.
      * apply M. now right.
Qed.

Lemma py_index_spec (v : number Q) (l : list (number Q)) :
  In v l ->
  exists (n : nat) (x : number Q),
    py_index v l = Ok n /\ nth_error l n = Some x /\
    (to_float x == to_float v)%Q /\
    forall j y, (j < n)%nat -> nth_error l j = Some y ->
                ~ (to_float y == to_float v)%Q.
Proof.
  induction l as [|z l IH]; simpl; [contradiction|]. intros I.
  destruct (py_eq z v) eqn:E.
  - exists O, z. repeat split; [now apply py_eq_spec|]. intros j y Hj. lia.
  - assert (I' : In v l).
    { destruct I as [->|I]; [|exact I].
      assert (py_eq v v = true) by (apply py_eq_spec; reflexivity). congruence. }
    destruct (IH I') as [n [x [P [N [X L]]]]].
    exists (S n), x. rewrite P. simpl. repeat split; try assumption.
    intros [|j] y Hj; simpl.
    + intros Y. inversion Y. subst y. intros Q. apply py_eq_spec in Q. congruence.
    + apply L. lia.
Qed.

(** The index chosen by lines 357-360 is that of the first greatest value. *)
Lemma highest_category_index_spec (l : list (number Q)) :
  l <> [] ->
  exists (n : nat) (x : number Q),
    highest_category_index l = Ok n /\ nth_error l n = Some x /\
    (forall y, In y l -> (to_float y <= to_float x)%Q) /\
    (forall j y, (j < n)%nat -> nth_error l j = Some y ->
                 (to_float y < to_float x)%Q).
Proof.
  destruct l as [|a l]; [congruence|]. intros _.
  unfold highest_category_index.
  destruct (py_max_spec l a) as [I M].
  destruct (py_index_spec _ _ I) as [n [x [P [N [X L]]]]].
  exists n, x. repeat split; try assumption.
  - intros y Hy. rewrite X. now apply M.
  - intros j y Hj Y. rewrite X.
    assert (to_float y <= to_float (py_max a l))%Q
      by (apply M; eapply nth_error_In; exact Y).
    specialize (L j y Hj Y). apply Qle_lteq in H. tauto.
Qed.

(** C8.  After a calculation that recorded the five category values, the
    focus area is the category of the greatest value, the first one in the
    order transport, home_energy, diet, consumption, waste when several
    are greatest, and it comes with that category's list of four pieces of
    advice. *)
Theorem focus_area_is_first_greatest_category
    (now : string) (t e d c w : Q) (tot : number Q) (s : session_state Q) :
  let s' := update_session now (PyFloat t) (PyFloat e) (PyFloat d) (PyFloat c)
                           (PyFloat w) tot s in
  let values := [t; e; d; c; w] in
  exists (n : nat) (cat : string) (advice : list string) (v : Q),
    focus_area s' = Ok (cat, advice) /\
    nth_error categories n = Some cat /\
    getitem recommendations cat = Ok advice /\
    length advice = 4%nat /\
    nth_error values n = Some v /\
    (forall x, In x values -> (x <= v)%Q) /\
    (forall j x, (j < n)%nat -> nth_error values j = Some x -> (x < v)%Q).
Proof.
  intros s' values.
  set (l := [PyFloat t; PyFloat e; PyFloat d; PyFloat c; PyFloat w] : list (number Q)).
  assert (Hl : latest_values (emissions_data s') categories = Ok l).
  { unfold s', update_session, latest_values, column, last_item. simpl.
    now rewrite !rev_unit. }
  assert (Hv : values = map to_float l) by reflexivity.
  assert (Hne : l <> []) by discriminate.
  assert (Hlen5 : length l = 5%nat) by reflexivity.
  clearbody l.
  destruct (highest_category_index_spec Hne) as [n [x [P [N [M L]]]]].
  assert (Hn : (n < length l)%nat) by (apply nth_error_Some; rewrite N; discriminate).
  rewrite Hlen5 in Hn.
  assert (Hf : exists cat advice,
             nth_error categories n = Some cat /\
             getitem recommendations cat = Ok advice /\ length advice = 4%nat).
  { destruct n as [|[|[|[|[|n]]]]]; [..|lia]; do 2 eexists;
      (split; [reflexivity|]); split; reflexivity. }
  destruct Hf as [cat [advice [Hc [Ha Hlen]]]].
  exists n, cat, advice, (to_float x).
  split.
  { unfold focus_area, highest_category. rewrite Hl. cbn [bind]. rewrite P.
    cbn [bind]. unfold list_item. rewrite Hc. cbn [bind]. now rewrite Ha. }
  repeat (split; [assumption|]).
  rewrite Hv. split; [now rewrite nth_error_map, N|]. split.
  - intros y Hy. apply in_map_iff in Hy. destruct Hy as [z [<- Hz]]. now apply M.
  - intros j y Hj. rewrite nth_error_map.
    destruct (nth_error l j) as [z|] eqn:Z; [|discriminate].
    simpl. intros Y. inversion Y. subst y. exact (L j z Hj Z).
Qed.

(** ** On the exact carrier: the global ranking *)

Lemma by_per_capita_descending_spec (a b : row Q) :
  by_per_capita_descending a b = true <->
  (Metric_Tons_Per_Capita b <= Metric_Tons_Per_Capita a)%Q.
Proof.
  unfold by_per_capita_descending. simpl.
  rewrite negb_involutive. apply Qle_bool_iff.
Qed.

Lemma by_per_capita_descending_total (a b : row Q) :
  by_per_capita_descending a b = true \/ by_per_capita_descending b a = true.
Proof.
  rewrite !by_per_capita_descending_spec.
  destruct (Qlt_le_dec (Metric_Tons_Per_Capita a) (Metric_Tons_Per_Capita b));
    [right; now apply Qlt_le_weak|now left].
Qed.

Lemma by_per_capita_descending_trans (a b c : row Q) :
  by_per_capita_descending a b = true -> by_per_capita_descending b c = true ->
  by_per_capita_descending a c = true.
Proof.
  rewrite !by_per_capita_descending_spec. intros H1 H2.
  eapply Qle_trans; eassumption.
Qed.

Lemma map_fst_combine (X Y : Type) (l : list X) (l' : list Y) :
  length l = length l' -> map fst (combine l l') = l.
Proof.
  revert l'. induction l as [|x l IH]; intros [|y l']; simpl; try discriminate;
    [reflexivity|].
  intros E. f_equal. apply IH. now inversion E.
Qed.

Lemma map_snd_combine (X Y : Type) (l : list X) (l' : list Y) :
  length l = length l' -> map snd (combine l l') = l'.
Proof.
  revert l'. induction l as [|x l IH]; intros [|y l']; simpl; try discriminate;
    [reflexivity|].
  intros E. f_equal. apply IH. now inversion E.
Qed.

Lemma StronglySorted_weaken (X : Type) (R R' : X -> X -> Prop) (l : list X) :
  (forall a b, R a b -> R' a b) -> StronglySorted R l -> StronglySorted R' l.
Proof.
  intros HR. induction 1 as [|x l S IH All]; constructor; [exact IH|].
  eapply Forall_impl; [|exact All]. intros b. apply HR.
Qed.

(** C6.  For a year with N rows, the ranking holds these N rows by
    decreasing per-capita value, numbered 1, 2, ..., N in this order (no
    gap, no duplicate); and the country whose per-capita value of the year
    is above that of every other country has rank 1. *)
Theorem global_ranking_is_1_to_N (emissions_df : DataFrame Q) (year : Z) :
  let rows := filter (fun r => Year r =? year) emissions_df in
  let ranking := global_data emissions_df year in
  map fst ranking = map Z.of_nat (seq 1 (length rows)) /\
  Permutation rows (map snd ranking) /\
  StronglySorted
    (fun a b => (Metric_Tons_Per_Capita b <= Metric_Tons_Per_Capita a)%Q)
    (map snd ranking) /\
  total_countries ranking = Z.of_nat (length rows) /\
  forall (selected_country : string) (r0 : row Q),
    In r0 rows -> Country r0 = selected_country ->
    (forall r, In r rows -> Country r <> selected_country ->
               (Metric_Tons_Per_Capita r < Metric_Tons_Per_Capita r0)%Q) ->
    country_rank ranking selected_country = Ok 1.
Proof.
  intros rows ranking. unfold ranking, global_data. cbv zeta. fold rows.
  clear ranking.
  set (sorted := sort_values by_per_capita_descending rows).
  assert (P : Permutation rows sorted) by apply sort_values_perm.
  assert (Hlen : length (map Z.of_nat (seq 1 (length sorted))) = length sorted)
    by now rewrite length_map, length_seq.
  assert (E : length sorted = length rows) by (symmetry; now apply Permutation_length).
  rewrite (map_fst_combine _ _ Hlen), (map_snd_combine _ _ Hlen).
  split; [now rewrite E|]. split; [exact P|]. split.
  { apply StronglySorted_weaken
      with (R := fun a b => by_per_capita_descending a b = true).
    - intros a b. apply by_per_capita_descending_spec.
    - apply sort_values_sorted.
      + exact by_per_capita_descending_total.
      + exact by_per_capita_descending_trans. }
  split.
  { unfold total_countries. rewrite length_combine, Hlen, Nat.min_id. now rewrite E. }
  intros c r0 I0 C0 Top.
  destruct sorted as [|hd rest] eqn:S.
  - apply (Permutation_in _ P) in I0. contradiction.
  - destruct (@sort_values_head Q by_per_capita_descending
                by_per_capita_descending_total by_per_capita_descending_trans
                rows hd rest S) as [Ih Hmax].
    simpl. destruct (String.eqb_spec (Country hd) c) as [_|N]; [reflexivity|].
    exfalso. specialize (Top hd Ih N).
    destruct (Hmax r0 I0) as [->|B]; [now apply N|].
    apply by_per_capita_descending_spec in B.
    exact (Qlt_not_le _ _ Top B).
Qed.

(** ** Divisions by zero on binary64 *)

Lemma float_zero_spec (r : float) :
  PrimFloat.eqb r 0%float = true -> exists sg, Prim2SF r = S754_zero sg.
Proof.
  rewrite eqb_spec. change (Prim2SF 0%float) with (S754_zero false).
  destruct (Prim2SF r) as [sg|sg| |sg m e]; simpl; try discriminate.
  - now exists sg.
  - destruct sg; discriminate.
  - destruct sg; discriminate.
Qed.

(** With a zero reference the difference is an infinity or NaN. *)
Lemma percentage_diff_by_zero (total : number float) (reference : float) :
  PrimFloat.eqb reference 0%float = true ->
  is_finite (percentage_diff total reference) = false.
Proof.
  intros Z. destruct (float_zero_spec Z) as [sg R].
  unfold percentage_diff, is_finite, is_nan, is_infinity. simpl.
  rewrite !eqb_spec, abs_spec, !mul_spec, !div_spec, !sub_spec, R.
  set (c := Prim2SF (float_of_Z 100)). vm_compute in c. subst c.
  change (Prim2SF infinity) with (S754_infinity false).
  destruct (Prim2SF (to_float total)) as [s'|s'| |s' m e]; destruct sg;
    try destruct s'; reflexivity.
Qed.

(** A finite nonzero float compared with itself gives a zero. *)
Lemma percentage_diff_same_float (x : float) :
  is_finite x = true -> PrimFloat.eqb x 0%float = false ->
  PrimFloat.eqb (percentage_diff (PyFloat x) x) 0%float = true.
Proof.
  unfold percentage_diff, is_finite, is_nan, is_infinity. simpl.
  rewrite !eqb_spec, abs_spec, !mul_spec, !div_spec, !sub_spec.
  set (c := Prim2SF (float_of_Z 100)). vm_compute in c. subst c.
  change (Prim2SF infinity) with (S754_infinity false).
  change (Prim2SF 0%float) with (S754_zero false).
  destruct (Prim2SF x) as [sg|sg| |sg m e]; simpl; try discriminate.
  - destruct sg; discriminate.
  - intros _ _. unfold SF64sub, SFsub. rewrite Z.sub_diag. simpl.
    destruct sg; reflexivity.
Qed.

Lemma growth_pct_by_zero (latest earliest : float) :
  PrimFloat.eqb earliest 0%float = true ->
  is_finite (growth_pct latest earliest) = false.
Proof.
  intros Z. destruct (float_zero_spec Z) as [sg R].
  unfold growth_pct, is_finite, is_nan, is_infinity. simpl.
  rewrite !eqb_spec, abs_spec, !mul_spec, !sub_spec, !div_spec, R.
  set (c := Prim2SF (float_of_Z 100)). vm_compute in c. subst c.
  set (c := Prim2SF (float_of_Z 1)). vm_compute in c. subst c.
  change (Prim2SF infinity) with (S754_infinity false).
  destruct (Prim2SF latest) as [s'|s'| |s' m e]; destruct sg;
    try destruct s'; reflexivity.
Qed.

(** ** The percentage differences *)

(** C4, as the code has it.  With a nonzero reference the difference is
    [(value - reference) / reference * 100]; it is 0 when the value is the
    reference; with a positive reference it is positive exactly when the
    value is above the reference.  On binary64 a finite nonzero value
    compared with itself gives zero as well.  With a zero reference nothing
    is raised and no failure is reported: the comparison with a country
    divides floats and its result is an infinity or NaN.  The comparison
    with the world average divides by the constant 4700 and always
    returns. *)
Theorem percentage_diff_is_relative_difference :
  (forall value reference : Q,
      ~ (reference == 0)%Q ->
      (percentage_diff (PyFloat value) reference
       == (value - reference) / reference * 100)%Q /\
      (percentage_diff (PyFloat reference) reference == 0)%Q /\
      ((0 < reference)%Q ->
       ((0 < percentage_diff (PyFloat value) reference)%Q <-> (reference < value)%Q)))
  /\
  (forall x : float,
      is_finite x = true -> PrimFloat.eqb x 0%float = false ->
      PrimFloat.eqb (percentage_diff (PyFloat x) x) 0%float = true)
  /\
  (forall (total : number float) (reference : float),
      PrimFloat.eqb reference 0%float = true ->
      is_finite (percentage_diff total reference) = false)
  /\
  (forall (F : Type) (ops : FloatOps F) (s : session_state F) (t : F),
      total_emissions s = PyFloat t ->
      percentage_diff_world s =
        Ok (PyFloat (f_mul (f_div (f_sub t (f_of_Z 4700)) (f_of_Z 4700))
                           (f_of_Z 100)))).
Proof.
  split; [|split; [exact percentage_diff_same_float|
                   split; [exact percentage_diff_by_zero|]]].
  - intros v r Hr. unfold percentage_diff. simpl.
    change (inject_Z 100) with 100%Q.
    split; [reflexivity|]. split; [field; exact Hr|].
    intros Hpos. split.
    + intros H.
      assert (D : (0 < (v - r) / r)%Q).
      { apply Qnot_le_lt. intros L.
        assert ((v - r) / r * 100 <= 0)%Q; [|lra].
        setoid_replace 0%Q with (0 * 100)%Q by ring.
        apply Qmult_le_compat_r; [exact L|discriminate]. }
      apply Qnot_le_lt. intros L.
      assert ((v - r) / r <= 0)%Q; [|lra].
      apply Qle_shift_div_r; [exact Hpos|]. lra.
    + intros H.
      assert (D : (0 < (v - r) / r)%Q) by (apply Qlt_shift_div_l; [exact Hpos|lra]).
      setoid_replace 0%Q with (0 * 100)%Q by ring.
      apply Qmult_lt_compat_r; [reflexivity|exact D].
  - intros F ops s t T. unfold percentage_diff_world. rewrite T. reflexivity.
Qed.

(** ** Growth of the regions *)

Lemma earliest_year_spec (F : Type) (emissions_df : DataFrame F) (y0 : Z) :
  earliest_year emissions_df = Some y0 ->
  In y0 (map Year emissions_df) /\
  forall y, In y (map Year emissions_df) -> y0 <= y.
Proof.
  unfold earliest_year. destruct (map Year emissions_df) as [|y ys]; [discriminate|].
  intros E. inversion E. clear E. subst y0. revert y.
  induction ys as [|z ys IH]; intros y; simpl.
  - split; [now left|]. intros ? [<-|[]]. lia.
  - destruct (IH (Z.min y z)) as [I M]. split.
    + destruct I as [I|I]; [|now (right; right)].
      rewrite <- I. destruct (Z.min_spec y z) as [[_ ->]|[_ ->]]; [now left|right; now left].
    + intros y' [<-|[<-|I']].
      * specialize (M (Z.min y z) (or_introl eq_refl)). lia.
      * specialize (M (Z.min y z) (or_introl eq_refl)). lia.
      * apply M. now right.
Qed.

Lemma latest_year_spec (F : Type) (emissions_df : DataFrame F) (y1 : Z) :
  latest_year emissions_df = Some y1 ->
  In y1 (map Year emissions_df) /\
  forall y, In y (map Year emissions_df) -> y <= y1.
Proof.
  unfold latest_year. destruct (map Year emissions_df) as [|y ys]; [discriminate|].
  intros E. inversion E. clear E. subst y1. revert y.
  induction ys as [|z ys IH]; intros y; simpl.
  - split; [now left|]. intros ? [<-|[]]. lia.
  - destruct (IH (Z.max y z)) as [I M]. split.
    + destruct I as [I|I]; [|now (right; right)].
      rewrite <- I. destruct (Z.max_spec y z) as [[_ ->]|[_ ->]]; [right; now left|now left].
    + intros y' [<-|[<-|I']].
      * specialize (M (Z.max y z) (or_introl eq_refl)). lia.
      * specialize (M (Z.max y z) (or_introl eq_refl)). lia.
      * apply M. now right.
Qed.

(** C7, as the code has it.  Between the earliest and the latest year of
    the dataset, the growth of a region that has rows in both years, with
    totals [e] and [l] of kilotons, is [(l / e - 1) * 100]: for a nonzero
    [e] this is the percentage change [(l - e) / e * 100]; for a zero [e]
    nothing is raised and no failure is reported, the result on binary64
    is an infinity or NaN. *)
Theorem region_growth_is_percentage_change :
  (forall (emissions_df : DataFrame Q) (region : string) (y0 y1 : Z) (l e : Q),
      earliest_year emissions_df = Some y0 ->
      latest_year emissions_df = Some y1 ->
      region_cell emissions_df y1 region = Some l ->
      region_cell emissions_df y0 region = Some e ->
      ~ (e == 0)%Q ->
      exists g : Q,
        region_growth_pct emissions_df region = Some g /\
        (g == (l - e) / e * 100)%Q)
  /\
  (forall (emissions_df : DataFrame float) (region : string) (y0 y1 : Z)
          (l e : float),
      earliest_year emissions_df = Some y0 ->
      latest_year emissions_df = Some y1 ->
      region_cell emissions_df y1 region = Some l ->
      region_cell emissions_df y0 region = Some e ->
      PrimFloat.eqb e 0%float = true ->
      exists g : float,
        region_growth_pct emissions_df region = Some g /\
        is_finite g = false).
Proof.
  split.
  - intros df region y0 y1 l e Y0 Y1 L E Hz.
    unfold region_growth_pct. rewrite Y0, Y1, L, E.
    eexists. split; [reflexivity|].
    unfold growth_pct. simpl.
    change (inject_Z 100) with 100%Q. change (inject_Z 1) with 1%Q.
    field. exact Hz.
  - intros df region y0 y1 l e Y0 Y1 L E Hz.
    unfold region_growth_pct. rewrite Y0, Y1, L, E.
    eexists. split; [reflexivity|]. now apply growth_pct_by_zero.
Qed.

(** ** Home energy *)

(** C9.  For each heating type offered, the estimator looks up the factor
    [ef] of ["Electricity"] and the heating factor [hf] - the entry
    ["Electric Heating"] when the heating type is ["Electric"], the entry
    of the heating type otherwise - and returns, starting from 0 and adding
    from left to right,
    [electricity_kwh * ef * (1 - renewable_percentage/100) * 12], then
    [heating_usage * hf * 12], then, with air conditioning only,
    [ac_hours * 365 * ef * (1 - renewable_percentage/100)].  The first part
    gives the operations on any carrier, the second the value on the exact
    carrier. *)
Theorem energy_emissions_formula :
  (forall (F : Type) (ops : FloatOps F) (i : inputs F),
      In (heating_type i) heating_type_options ->
      exists ef hf : number F,
        factor "Electricity" = Ok ef /\
        factor (if String.eqb (heating_type i) "Electric"
                then "Electric Heating"%string else heating_type i) = Ok hf /\
        energy_emissions i =
          Ok (PyFloat
                (let r := f_sub (f_of_Z 1)
                                (f_div (f_of_Z (renewable_percentage i)) (f_of_Z 100)) in
                 let electricity :=
                   f_mul (f_mul (f_mul (f_of_Z (electricity_kwh i)) (to_float ef)) r)
                         (f_of_Z 12) in
                 let heating :=
                   f_mul (f_mul (f_of_Z (heating_usage i)) (to_float hf)) (f_of_Z 12) in
                 let base := f_add (f_add (f_of_Z 0) electricity) heating in
                 if has_ac i
                 then f_add base
                        (f_mul (f_mul (f_of_Z (ac_hours i * 365)) (to_float ef)) r)
                 else base)))
  /\
  (forall i : inputs Q,
      In (heating_type i) heating_type_options ->
      exists (ef hf : number Q) (e : Q),
        factor "Electricity" = Ok ef /\
        factor (if String.eqb (heating_type i) "Electric"
                then "Electric Heating"%string else heating_type i) = Ok hf /\
        energy_emissions i = Ok (PyFloat e) /\
        (e ==
         inject_Z (electricity_kwh i) * to_float ef
           * (1 - inject_Z (renewable_percentage i) / 100) * 12
         + inject_Z (heating_usage i) * to_float hf * 12
         + (if has_ac i
            then inject_Z (ac_hours i) * 365 * to_float ef
                 * (1 - inject_Z (renewable_percentage i) / 100)
            else 0))%Q).
Proof.
  assert (G : forall (F : Type) (ops : FloatOps F) (i : inputs F),
      In (heating_type i) heating_type_options ->
      exists ef hf : number F,
        factor "Electricity" = Ok ef /\
        factor (if String.eqb (heating_type i) "Electric"
                then "Electric Heating"%string else heating_type i) = Ok hf /\
        energy_emissions i =
          Ok (PyFloat
                (let r := f_sub (f_of_Z 1)
                                (f_div (f_of_Z (renewable_percentage i)) (f_of_Z 100)) in
                 let electricity :=
                   f_mul (f_mul (f_mul (f_of_Z (electricity_kwh i)) (to_float ef)) r)
                         (f_of_Z 12) in
                 let heating :=
                   f_mul (f_mul (f_of_Z (heating_usage i)) (to_float hf)) (f_of_Z 12) in
                 let base := f_add (f_add (f_of_Z 0) electricity) heating in
                 if has_ac i
                 then f_add base
                        (f_mul (f_mul (f_of_Z (ac_hours i * 365)) (to_float ef)) r)
                 else base))).
  { intros F ops i Hh. unfold energy_emissions, heating_factor.
    pick Hh; rewrite Hh; destruct (has_ac i); do 2 eexists;
      (split; [reflexivity|]); split; reflexivity. }
  split; [exact G|].
  intros i Hh. destruct (G Q _ i Hh) as [ef [hf [Ef [Hf E]]]].
  exists ef, hf. eexists. repeat (split; [eassumption|]).
  cbv zeta. cbv [f_add f_mul f_sub f_div f_of_Z Q_ops].
  rewrite inject_Z_mult.
  change (inject_Z 0) with 0%Q. change (inject_Z 1) with 1%Q.
  change (inject_Z 12) with 12%Q. change (inject_Z 100) with 100%Q.
  change (inject_Z 365) with 365%Q.
  destruct (has_ac i); field.
Qed.

(** * The sample data, on binary64 and on the exact carrier *)

Local Open Scope string_scope.

(** Scenario A evaluates to the floats Python prints as 700.8, 4200.0,
    2250.2318984999997, 570.0, 221.0 and the total 7942.031898499999. *)
Lemma scenario_A_on_binary64 :
  press_calculate "2024-05-01" scenario_A initial_session =
    (Ok tt,
     {| globals :=
          [ ("total_emissions", PyFloat 0x1.f06082a80064ap+12%float);
            ("waste_emissions", PyFloat 221%float);
            ("consumption_emissions", PyFloat 570%float);
            ("diet_emissions", PyFloat 0x1.19476bb6672fbp+11%float);
            ("energy_emissions", PyFloat 4200%float);
            ("transport_emissions", PyFloat 0x1.5e66666666666p+9%float) ];
        session :=
          {| total_emissions := PyFloat 0x1.f06082a80064ap+12%float;
             emissions_data :=
               {| date := ["2024-05-01"];
                  transport := [PyFloat 0x1.5e66666666666p+9%float];
                  home_energy := [PyFloat 4200%float];
                  diet := [PyFloat 0x1.19476bb6672fbp+11%float];
                  consumption := [PyFloat 570%float];
                  waste := [PyFloat 221%float];
                  total := [PyFloat 0x1.f06082a80064ap+12%float] |} |} |}).
Proof. vm_compute. reflexivity. Qed.

(** Scenario B: 5000 against 4700 is +6.38 %. *)
Lemma scenario_B_on_binary64 :
  percentage_diff (PyFloat 5000%float) 4700%float = 0x1.9882b93105726p+2%float.
Proof. vm_compute. reflexivity. Qed.

Lemma commute_emissions_asymmetry_witness :
  In (transport_mode (@scenario_A float _)) transport_mode_options /\
  exists f : number float,
    factor "Car (Gasoline)" = Ok f /\
    commute_emissions (@scenario_A float _) =
      Ok (PyFloat (f_mul (f_mul (f_of_Z 10) (to_float f)) (f_of_Z 365))).
Proof.
  assert (H : In (transport_mode (@scenario_A float _)) transport_mode_options)
    by (simpl; auto).
  split; [exact H|].
  destruct (commute_emissions_asymmetry (@scenario_A float _) H) as [f [Hf [Hc _]]].
  exists f. split; [exact Hf|exact Hc].
Defined.

Lemma scenario_A_valid : valid_profile (@scenario_A Q _).
Proof.
  constructor; try (constructor; simpl; auto 10); simpl;
    unfold percentage; try lia; try discriminate; try reflexivity.
  - constructor.
  - intros x [].
Defined.




(** C4, as stated, fails: against the country recorded with 0 ton per
    capita the comparison returns the float [+infinity]; nothing is raised
    and no failure is reported. *)
Lemma zero_reference_gives_infinity :
  country_comparison zero_dataset "Tuvalu" sample_session
    = Some (2019, 0%float, infinity) /\
  percentage_diff (PyFloat 5000%float) 0%float = infinity.
Proof. split; vm_compute; reflexivity. Qed.

Lemma percentage_diff_is_relative_difference_witness :
  ~ (4700 == 0)%Q /\
  (percentage_diff (PyFloat 5000%Q) 4700 == (5000 - 4700) / 4700 * 100)%Q /\
  (percentage_diff (PyFloat 4700%Q) 4700 == 0)%Q /\
  is_finite (percentage_diff (PyFloat 5000%float) 0%float) = false.
Proof.
  assert (H : ~ (4700 == 0)%Q) by discriminate.
  split; [exact H|].
  destruct percentage_diff_is_relative_difference as [A [_ [B _]]].
  destruct (A 5000%Q 4700%Q H) as [A1 [A2 _]].
  split; [exact A1|]. split; [exact A2|].
  exact (B (PyFloat 5000%float) 0%float eq_refl).
Defined.

Lemma history_grows_by_one_record_witness :
  offered (@scenario_A float _) /\
  exists st st' : state float,
    press_calculate "2024-05-01" scenario_A initial_session = (Ok tt, st) /\
    press_calculate "2024-05-02" scenario_A (session st) = (Ok tt, st') /\
    length (total (emissions_data (session st))) = 1%nat /\
    length (total (emissions_data (session st'))) = 2%nat.
Proof.
  assert (H : offered (@scenario_A float _)) by (constructor; simpl; auto 10).
  split; [exact H|].
  destruct (history_grows_by_one_record "2024-05-01" "2024-05-02" initial_session H)
    as (t & e & d & c & w & tot & st & st' & P & _ & P' & _ & L & L').
  exists st, st'. repeat split; assumption.
Defined.

Lemma global_ranking_is_1_to_N_witness :
  map fst (global_data (@sample_dataset Q _) 2019) = [1; 2; 3]%Z /\
  country_rank (global_data (@sample_dataset Q _) 2019) "Qatar" = Ok 1%Z.
Proof.
  destruct (global_ranking_is_1_to_N (@sample_dataset Q _) 2019)
    as (R & _ & _ & _ & Top).
  split; [exact R|].
  apply (Top "Qatar"
             {| Country := "Qatar"; Year := 2019; Region := "Asia";
                Metric_Tons_Per_Capita := f_of_Z 32;
                Kilotons_of_Co2 := f_of_Z 90000 |}).
  - simpl. auto.
  - reflexivity.
  - simpl. intros r [<-|[<-|[<-|[]]]] N; simpl in *;
      solve [reflexivity | now elim N].
Defined.

(** C7, as stated, fails: a region without emission in the earliest year
    has the growth [+infinity]. *)
Lemma zero_earliest_total_gives_infinity :
  earliest_year (@zero_dataset float _) = Some 1990%Z /\
  region_cell (@zero_dataset float _) 1990 "Oceania" = Some 0%float /\
  region_growth_pct (@zero_dataset float _) "Oceania" = Some infinity.
Proof. repeat split; vm_compute; reflexivity. Qed.

Lemma region_growth_is_percentage_change_witness :
  (exists g : Q,
      region_growth_pct (@sample_dataset Q _) "Asia" = Some g /\
      (g == (2490000 - 612000) / 612000 * 100)%Q) /\
  (exists g : float,
      region_growth_pct (@zero_dataset float _) "Oceania" = Some g /\
      is_finite g = false).
Proof.
  destruct region_growth_is_percentage_change as [A B]. split.
  - assert (Y0 : earliest_year (@sample_dataset Q _) = Some 1990%Z) by reflexivity.
    assert (Y1 : latest_year (@sample_dataset Q _) = Some 2019%Z) by reflexivity.
    assert (C1 : region_cell (@sample_dataset Q _) 2019 "Asia" = Some 2490000%Q)
      by reflexivity.
    assert (C0 : region_cell (@sample_dataset Q _) 1990 "Asia" = Some 612000%Q)
      by reflexivity.
    assert (N : ~ (612000 == 0)%Q) by discriminate.
    exact (A _ _ _ _ _ _ Y0 Y1 C1 C0 N).
  - assert (Y0 : earliest_year (@zero_dataset float _) = Some 1990%Z) by reflexivity.
    assert (Y1 : latest_year (@zero_dataset float _) = Some 2019%Z) by reflexivity.
    assert (C1 : region_cell (@zero_dataset float _) 2019 "Oceania" = Some 5%float)
      by reflexivity.
    assert (C0 : region_cell (@zero_dataset float _) 1990 "Oceania" = Some 0%float)
      by reflexivity.
    exact (B _ _ _ _ _ _ Y0 Y1 C1 C0 eq_refl).
Defined.

Lemma energy_emissions_formula_witness :
  In (heating_type (@scenario_A float _)) heating_type_options /\
  (exists ef hf : number float,
      factor "Electricity" = Ok ef /\ factor "Natural Gas" = Ok hf /\
      energy_emissions (@scenario_A float _) =
        Ok (PyFloat
              (f_add
                 (f_add (f_of_Z 0)
                    (f_mul
                       (f_mul (f_mul (f_of_Z 300) (to_float ef))
                          (f_sub (f_of_Z 1) (f_div (f_of_Z 0) (f_of_Z 100))))
                       (f_of_Z 12)))
                 (f_mul (f_mul (f_of_Z 100) (to_float hf)) (f_of_Z 12))))) /\
  (exists e : Q,
      energy_emissions (@scenario_A Q _) = Ok (PyFloat e) /\ (e == 4200)%Q).
Proof.
  assert (H : In (heating_type (@scenario_A float _)) heating_type_options)
    by (simpl; auto).
  assert (H' : In (heating_type (@scenario_A Q _)) heating_type_options)
    by (simpl; auto).
  split; [exact H|].
  destruct energy_emissions_formula as [A B]. split.
  - destruct (A float _ (@scenario_A float _) H) as (ef & hf & E1 & E2 & E3).
    exists ef, hf. repeat split; assumption.
  - destruct (B (@scenario_A Q _) H') as (ef & hf & e & E1 & E2 & E3 & E4).
    exists e. split; [exact E3|].
    eapply Qeq_trans; [exact E4|].
    inversion E1. inversion E2. reflexivity.
Defined.

Lemma country_reference_is_latest_per_capita_times_1000_witness :
  (exists r0 : row float, In r0 sample_dataset /\ Country r0 = "India") /\
  exists r : row float,
    Country r = "India" /\
    (forall r', In r' sample_dataset -> Country r' = "India" -> (Year r' <= Year r)%Z) /\
    country_comparison sample_dataset "India" sample_session =
      Some (Year r, f_mul (Metric_Tons_Per_Capita r) (f_of_Z 1000),
            percentage_diff (total_emissions sample_session)
              (f_mul (Metric_Tons_Per_Capita r) (f_of_Z 1000))).
Proof.
  assert (H : exists r0 : row float, In r0 sample_dataset /\ Country r0 = "India").
  { eexists. split; [left; reflexivity|reflexivity]. }
  split; [exact H|].
  destruct (country_reference_is_latest_per_capita_times_1000
              sample_dataset sample_session H) as (r & _ & C & M & E).
  exists r. repeat split; assumption.
Defined.

(** On binary64 the comparison with India uses the row of 2019: 1.8 t per
    capita, that is 1800 kg. *)
Lemma country_comparison_on_binary64 :
  country_comparison sample_dataset "India" sample_session
    = Some (2019%Z, 1800%float, 0x1.553957b1c775ep+8%float).
Proof. vm_compute. reflexivity. Qed.

(** * Further properties of the handler *)

Section HandlerFacts.

Context {F : Type} {ops : FloatOps F}.

Implicit Types (i : inputs F) (s : session_state F) (p : string * inputs F).

(** A press either records one calculation or leaves the session as it
    was. *)
Lemma press_cases s p :
  (returns s p = true /\
   exists t e d c w : number F,
     press s p =
       update_session (fst p) t e d c w (sum_emissions t e d c w) s) \/
  (returns s p = false /\ press s p = s).
Proof.
  unfold returns, press, press_calculate, calculate, mbind, eval, assign,
    modify_session.
  destruct (transport_emissions (snd p)) as [t|?]; simpl; [|now right].
  destruct (energy_emissions (snd p)) as [e|?]; simpl; [|now right].
  destruct (diet_emissions (snd p)) as [d|?]; simpl; [|now right].
  destruct (consumption_emissions (snd p)) as [c|?]; simpl; [|now right].
  destruct (waste_emissions (snd p)) as [w|?]; simpl; [|now right].
  left. split; [reflexivity|]. now exists t, e, d, c, w.
Qed.

Lemma last_item_app (X : Type) (l : list X) (x : X) : last_item (l ++ [x]) = Ok x.
Proof. unfold last_item. now rewrite rev_unit. Qed.

Lemma consistent_press s p : consistent s -> consistent (press s p).
Proof.
  intros C. destruct (press_cases s p) as [[_ (t & e & d & c & w & ->)]|[_ ->]];
    [|exact C].
  destruct C as (C1 & C2 & C3 & C4 & C5 & C6 & _).
  unfold consistent, update_session. simpl.
  rewrite !length_app, last_item_app. simpl. repeat split; lia.
Qed.

Lemma session_stays_consistent_aux (l : list (string * inputs F)) :
  consistent (presses l initial_session).
Proof.
  assert (G : forall s, consistent s -> consistent (presses l s)).
  { induction l as [|p l IH]; intros s C; simpl; [exact C|].
    apply IH. now apply consistent_press. }
  apply G. unfold consistent. simpl. repeat split; reflexivity.
Qed.

(** Whatever the presses since the start of the session - with offered
    inputs or not, returning or raising - the seven lists of the history
    have the same length and the stored total is the last total recorded
    (or the initial 0 when nothing has been recorded). *)
Theorem session_stays_consistent (l : list (string * inputs F)) :
  consistent (presses l initial_session).
Proof.
  assert (G : forall s, consistent s -> consistent (presses l s)).
  { induction l as [|p l IH]; intros s C; simpl; [exact C|].
    apply IH. now apply consistent_press. }
  apply G. unfold consistent. simpl. repeat split; reflexivity.
Qed.

(** The history is append-only along any sequence of presses: each list
    after the presses is the list before them followed by one element for
    each press that returned, and by nothing for a press that raised. *)
Theorem history_is_append_only (l : list (string * inputs F)) s :
  exists (ds : list string) (ts es dis cs ws tots : list (number F)),
    let h := emissions_data s in
    let n := count_returns l s in
    emissions_data (presses l s) =
      {| date := date h ++ ds;
         transport := transport h ++ ts;
         home_energy := home_energy h ++ es;
         diet := diet h ++ dis;
         consumption := consumption h ++ cs;
         waste := waste h ++ ws;
         total := total h ++ tots |} /\
    length ds = n /\ length ts = n /\ length es = n /\ length dis = n /\
    length cs = n /\ length ws = n /\ length tots = n.
Proof.
  revert s. induction l as [|p l IH]; intros s; cbv zeta.
  - exists [], [], [], [], [], [], []. simpl. rewrite !app_nil_r.
    destruct (emissions_data s). repeat split; reflexivity.
  - destruct (IH (press s p)) as (ds & ts & es & dis & cs & ws & tots & E & L).
    cbv zeta in E, L. simpl presses. simpl count_returns.
    destruct (press_cases s p) as [[-> (t & e & d & c & w & P)]|[-> P]];
      rewrite P in *.
    + exists (fst p :: ds), (t :: ts), (e :: es), (d :: dis), (c :: cs),
        (w :: ws), (sum_emissions t e d c w :: tots).
      rewrite E. unfold update_session. simpl. rewrite <- !app_assoc. simpl.
      split; [reflexivity|].
      destruct L as (L1 & L2 & L3 & L4 & L5 & L6 & L7). simpl.
      repeat split; f_equal; assumption.
    + exists ds, ts, es, dis, cs, ws, tots. split; [exact E|exact L].
Qed.

(** An exception of the handler is always due to a key - the [KeyError]
    of a key of the profile that some lookup does not know, or the
    [TypeError] of a nested table used as a factor - and never a
    [ZeroDivisionError], [IndexError] or [ValueError]; the session is then
    exactly as before the press. *)
Theorem press_raises_only_for_keys now i s (e : exn) (st : state F) :
  press_calculate now i s = (Raise e, st) ->
  session st = s /\ key_failure i e /\
  e <> ZeroDivisionError /\ e <> IndexError /\ e <> ValueError.
Proof.
  intros P. destruct (press_calculate_raises _ _ _ P) as [S [_ R]].
  assert (K : key_failure i e).
  { unfold key_failure. destruct R as [R|[R|[R|[R|R]]]].
    - destruct (transport_emissions_raises _ R) as [->|[-> N]]; [now left|right].
      eexists; split; [reflexivity|now apply key_failure_transport].
    - destruct (energy_emissions_raises _ R) as [->|[-> N]]; [now left|right].
      eexists; split; [reflexivity|now apply key_failure_heating].
    - destruct (diet_emissions_raises _ R) as [->|[-> N]]; [now left|right].
      eexists; split; [reflexivity|now apply key_failure_diet].
    - destruct (consumption_emissions_raises _ R) as [-> N]. right.
      eexists; split; [reflexivity|now apply key_failure_clothing].
    - destruct (waste_emissions_raises _ R) as [-> N]. right.
      eexists; split; [reflexivity|now apply key_failure_zero_waste]. }
  split; [exact S|]. split; [exact K|].
  destruct K as [->|[k [-> _]]]; repeat split; discriminate.
Qed.

End HandlerFacts.

Section AcceptedInputs.

Context {F : Type} {ops : FloatOps F}.

Implicit Types (i : inputs F) (s : session_state F).

Lemma factor_returns_iff (k : string) :
  match factor k with Ok _ => true | Raise _ => false end = numeric_key k.
Proof.
  unfold factor, numeric_key.
  destruct (getitem emission_factors k) as [[n|d]|e]; reflexivity.
Qed.

Lemma transport_emissions_returns_iff i :
  match transport_emissions i with Ok _ => true | Raise _ => false end
  = numeric_key (transport_mode i).
Proof.
  rewrite <- factor_returns_iff.
  unfold transport_emissions, commute_emissions.
  destruct (prefix "Car" (transport_mode i));
    [destruct (String.eqb (transport_mode i) "Car (Electric)")|];
    destruct (factor (transport_mode i)); reflexivity.
Qed.

Lemma energy_emissions_returns_iff i :
  match energy_emissions i with Ok _ => true | Raise _ => false end
  = numeric_key (if String.eqb (heating_type i) "Electric"
                 then "Electric Heating"%string else heating_type i).
Proof.
  rewrite <- factor_returns_iff.
  unfold energy_emissions, heating_factor.
  destruct (String.eqb (heating_type i) "Electric").
  - destruct (has_ac i); reflexivity.
  - destruct (factor (heating_type i)); [destruct (has_ac i)|]; reflexivity.
Qed.

Lemma diet_emissions_returns_iff i :
  match diet_emissions i with Ok _ => true | Raise _ => false end
  = numeric_key (diet_type i).
Proof.
  rewrite <- factor_returns_iff. unfold diet_emissions.
  destruct (factor (diet_type i)); reflexivity.
Qed.

Lemma getitem_returns_iff (V : Type) (d : list (string * V)) (k : string) :
  match getitem d k with Ok _ => true | Raise _ => false end = known (keys d) k.
Proof.
  induction d as [|[k' v] d IH]; simpl; [reflexivity|].
  destruct (String.eqb k k'); [reflexivity|exact IH].
Qed.

Lemma consumption_emissions_returns_iff i :
  match consumption_emissions i with Ok _ => true | Raise _ => false end
  = known (@table_keys F ops "Clothing Spending") (clothing_spending i).
Proof.
  unfold consumption_emissions, subfactor, table_keys.
  change (@nested_table F ops "Clothing Spending")
    with (Ok [ ("Very Low", dec 5 10); ("Low", dec 75 100);
               ("Average", dec 10 10); ("High", dec 15 10);
               ("Very High", dec 20 10) ]%string : outcome (list (string * number F))).
  cbn [bind]. rewrite <- getitem_returns_iff.
  match goal with |- context [getitem ?d ?k] => destruct (getitem d k) end;
    reflexivity.
Qed.

Lemma waste_emissions_returns_iff i :
  match waste_emissions i with Ok _ => true | Raise _ => false end
  = known (@table_keys F ops "Zero Waste Efforts") (zero_waste i).
Proof.
  unfold waste_emissions, subfactor, table_keys.
  change (@nested_table F ops "Zero Waste Efforts")
    with (Ok [ ("None", dec 10 10); ("Minimal", dec 9 10);
               ("Moderate", dec 7 10); ("Significant", dec 5 10);
               ("Zero-waste lifestyle", dec 2 10) ]%string
          : outcome (list (string * number F))).
  change (@factor F ops "Waste") with (Ok (dec 5 10) : outcome (number F)).
  cbn [bind]. rewrite <- getitem_returns_iff.
  match goal with |- context [getitem ?d ?k] => destruct (getitem d k) end;
    reflexivity.
Qed.

(** The handler returns exactly for the inputs whose transport mode,
    heating type (["Electric"] standing for ["Electric Heating"]) and diet
    type are keys of numbers of the factor table, and whose clothing and
    packaging tiers are keys of their nested tables.  The category of a key
    is not checked, so that more inputs are accepted than the widgets
    offer: ["Electricity"] is accepted as a heating type. *)
Theorem press_returns_iff_accepted now i s :
  returns s (now, i) = accepted i /\
  (offered i -> accepted i = true) /\
  (exists i' : inputs F, accepted i' = true /\ ~ offered i').
Proof.
  split; [|split].
  - unfold returns, accepted, press_calculate, calculate, mbind, eval, assign,
      modify_session. cbn [fst snd].
    rewrite <- transport_emissions_returns_iff, <- energy_emissions_returns_iff,
      <- diet_emissions_returns_iff, <- consumption_emissions_returns_iff,
      <- waste_emissions_returns_iff.
    destruct (transport_emissions i); [|reflexivity].
    destruct (energy_emissions i); [|reflexivity].
    destruct (diet_emissions i); [|reflexivity].
    destruct (consumption_emissions i); [|reflexivity].
    destruct (waste_emissions i); reflexivity.
  - intros [Hm Hh Hd Hc Hz]. unfold accepted.
    rewrite <- transport_emissions_returns_iff, <- energy_emissions_returns_iff,
      <- diet_emissions_returns_iff, <- consumption_emissions_returns_iff,
      <- waste_emissions_returns_iff.
    destruct (transport_emissions_returns _ Hm) as [? ->].
    destruct (energy_emissions_returns _ Hh) as [? ->].
    destruct (diet_emissions_returns _ Hd) as [? ->].
    destruct (consumption_emissions_returns _ Hc) as [? ->].
    destruct (waste_emissions_returns _ Hz) as [? ->].
    reflexivity.
  - exists (sample_profile "Electricity" "None"). split; [reflexivity|].
    intros [_ Hh _ _ _]. simpl in Hh.
    repeat (destruct Hh as [Hh|Hh]; [discriminate|]). exact Hh.
Qed.

End AcceptedInputs.

(** * Further properties of the estimators *)

(** ** Diet *)

(** With no local, organic, wasted or processed food the four modifiers
    are 1 and the diet emissions are the daily factor of the diet times
    365: up to the equality of rationals on the exact carrier, and bit for
    bit on binary64. *)
Theorem diet_emissions_without_modifiers :
  (forall i : inputs Q,
      In (diet_type i) diet_type_options ->
      local_food i = 0 -> organic_food i = 0 ->
      food_waste i = 0 -> processed_food i = 0 ->
      exists (f : number Q) (d : Q),
        factor (diet_type i) = Ok f /\
        diet_emissions i = Ok (PyFloat d) /\
        (d == to_float f * 365)%Q)
  /\
  (forall i : inputs float,
      In (diet_type i) diet_type_options ->
      local_food i = 0 -> organic_food i = 0 ->
      food_waste i = 0 -> processed_food i = 0 ->
      exists f : number float,
        factor (diet_type i) = Ok f /\
        diet_emissions i = Ok (PyFloat (to_float f * float_of_Z 365)%float)).
Proof.
  split.
  - intros i Hd H1 H2 H3 H4. unfold diet_emissions.
    rewrite H1, H2, H3, H4.
    pick Hd; rewrite Hd; do 2 eexists; (split; [reflexivity|]);
      (split; [reflexivity|]); reflexivity.
  - intros i Hd H1 H2 H3 H4. unfold diet_emissions.
    rewrite H1, H2, H3, H4.
    pick Hd; rewrite Hd; eexists; (split; [reflexivity|]);
      vm_compute; reflexivity.
Qed.

Lemma Qfraction_range (r k : Z) :
  0 <= r <= 100 -> 0 < k ->
  (0 <= inject_Z r / inject_Z k /\ inject_Z r / inject_Z k <= 100 / inject_Z k)%Q.
Proof.
  intros Hr Hk. pose proof (Qpos_inject Hk) as Pk. split.
  - apply Qnn_div; [apply Qnn_inject; lia|exact Pk].
  - unfold Qdiv. apply Qmult_le_compat_r.
    + change 100%Q with (inject_Z 100). rewrite <- Zle_Qle. lia.
    + apply Qlt_le_weak. now apply Qinv_lt_0_compat.
Qed.

Lemma Qmult_range (a b la ha lb hb : Q) :
  (0 <= la -> la <= a -> a <= ha -> 0 <= lb -> lb <= b -> b <= hb ->
   la * lb <= a * b /\ a * b <= ha * hb)%Q.
Proof.
  intros. split.
  - apply Qle_trans with (a * lb)%Q.
    + apply Qmult_le_compat_r; assumption.
    + rewrite !(Qmult_comm a). apply Qmult_le_compat_r; [assumption|lra].
  - apply Qle_trans with (a * hb)%Q.
    + rewrite !(Qmult_comm a). apply Qmult_le_compat_r; [assumption|lra].
    + apply Qmult_le_compat_r; [assumption|lra].
Qed.


(** ** Waste, home energy, transport *)

(** Composting multiplies the waste emissions by 0.8, everything else
    being equal. *)
Theorem composting_scales_waste_by_0_8 (i i' : inputs Q) :
  In (zero_waste i) zero_waste_options ->
  zero_waste i' = zero_waste i ->
  waste_weekly i' = waste_weekly i ->
  recycling_rate i' = recycling_rate i ->
  composting i = false -> composting i' = true ->
  exists w w' : Q,
    waste_emissions i = Ok (PyFloat w) /\
    waste_emissions i' = Ok (PyFloat w') /\
    (w' == (8 # 10) * w)%Q.
Proof.
  intros Hz Ez Ew Er C C'. unfold waste_emissions.
  rewrite Ez, Ew, Er, C, C'.
  pick Hz; rewrite Hz; do 2 eexists; (split; [reflexivity|]);
    (split; [reflexivity|]); exact_carrier; field.
Qed.

(** With 100 % of renewable energy the electricity and the air
    conditioning contribute nothing: the home-energy emissions are the
    heating alone, [heating_usage * heating factor * 12]. *)
Theorem fully_renewable_energy_is_heating_only (i : inputs Q) :
  In (heating_type i) heating_type_options ->
  renewable_percentage i = 100 ->
  exists (hf : number Q) (e : Q),
    heating_factor i = Ok hf /\
    energy_emissions i = Ok (PyFloat e) /\
    (e == inject_Z (heating_usage i) * to_float hf * 12)%Q.
Proof.
  intros Hh Hr. unfold energy_emissions, heating_factor, renewable_adjustment.
  rewrite Hr.
  pick Hh; rewrite Hh; destruct (has_ac i); do 2 eexists;
    (split; [reflexivity|]); (split; [reflexivity|]); exact_carrier; field.
Qed.

(** For the modes ["Bicycle"] and ["Walking"] the commute contributes
    nothing whatever the distance: the transport emissions are those of the
    flights, 500, 1500 and 3000 kg per short, medium and long flight. *)
Theorem zero_emission_modes_count_flights_only (i : inputs Q) :
  transport_mode i = "Bicycle"%string \/ transport_mode i = "Walking"%string ->
  exists t : Q,
    transport_emissions i = Ok (PyFloat t) /\
    (t == inject_Z (500 * flight_short i + 1500 * flight_medium i
                    + 3000 * flight_long i))%Q.
Proof.
  unfold transport_emissions, commute_emissions.
  intros [Hm|Hm]; rewrite Hm; eexists; (split; [reflexivity|]); exact_carrier;
    rewrite !inject_Z_plus, !inject_Z_mult; ring.
Qed.

(** The transport emissions do not decrease when the daily distance
    grows, the mode, the fuel efficiency and the flights being the same. *)
Theorem transport_emissions_monotone_in_distance (i i' : inputs Q) :
  In (transport_mode i) transport_mode_options ->
  transport_mode i' = transport_mode i ->
  fuel_efficiency i' = fuel_efficiency i ->
  flight_short i' = flight_short i ->
  flight_medium i' = flight_medium i ->
  flight_long i' = flight_long i ->
  (0 <= fuel_efficiency i)%Q ->
  (daily_distance i <= daily_distance i')%Q ->
  exists t t' : Q,
    transport_emissions i = Ok (PyFloat t) /\
    transport_emissions i' = Ok (PyFloat t') /\
    (t <= t')%Q.
Proof.
  intros Hm Em Ef Es Eme El Hf Hd. unfold transport_emissions, commute_emissions.
  rewrite Em, Ef, Es, Eme, El.
  assert (G : forall k : Q, (0 <= k)%Q ->
            (daily_distance i * k <= daily_distance i' * k)%Q)
    by (intros k Hk; now apply Qmult_le_compat_r).
  pick Hm; rewrite Hm; do 2 eexists; (split; [reflexivity|]);
    (split; [reflexivity|]); exact_carrier;
    repeat (apply Qplus_le_compat; [|apply Qle_refl]);
    try (apply Qplus_le_compat; [apply Qle_refl|]);
    repeat (apply Qmult_le_compat_r; [|discriminate]);
    try (apply G; first [discriminate | assumption]); try exact Hd.
Qed.

(** ** The results are displayed after a valid calculation *)

Lemma diet_emissions_positive (i : inputs Q) :
  valid_profile i ->
  exists d : Q, diet_emissions i = Ok (PyFloat d) /\ (0 < d)%Q.
Proof.
  intros [[_ _ Hd _ _] _ _ _ _ _ _ _ _ _ Hl Ho Hw Hp _ _ _ _ _].
  unfold percentage in *.
  destruct (Qfraction_range Hl (k := 200) eq_refl) as [L1 L2].
  destruct (Qfraction_range Ho (k := 250) eq_refl) as [O1 O2].
  destruct (Qfraction_range Hw (k := 100) eq_refl) as [W1 _].
  destruct (Qfraction_range Hp (k := 200) eq_refl) as [P1 _].
  setoid_replace (100 / inject_Z 200)%Q with (1 # 2)%Q in L2 by reflexivity.
  setoid_replace (100 / inject_Z 250)%Q with (2 # 5)%Q in O2 by reflexivity.
  assert (A : (0 < inject_Z 1 - inject_Z (local_food i) / inject_Z 200)%Q)
    by (change (inject_Z 1) with 1%Q; lra).
  assert (B : (0 < inject_Z 1 - inject_Z (organic_food i) / inject_Z 250)%Q)
    by (change (inject_Z 1) with 1%Q; lra).
  assert (C : (0 < inject_Z 1 + inject_Z (food_waste i) / inject_Z 100)%Q)
    by (change (inject_Z 1) with 1%Q; lra).
  assert (E : (0 < inject_Z 1 + inject_Z (processed_food i) / inject_Z 200)%Q)
    by (change (inject_Z 1) with 1%Q; lra).
  unfold diet_emissions.
  pick Hd; rewrite Hd; eexists; (split; [reflexivity|]); exact_carrier;
    repeat (apply Qmult_lt_0_compat); try assumption; reflexivity.
Qed.

(** After a calculation on a valid profile the stored total is positive
    (the diet alone is), so that the results, the recommendations and the
    comparisons are displayed. *)
Theorem results_shown_after_valid_calculation
    (now : string) (i : inputs Q) (s : session_state Q) :
  valid_profile i ->
  results_shown (press s (now, i)) = true /\
  exists tot : Q,
    total_emissions (press s (now, i)) = PyFloat tot /\ (0 < tot)%Q.
Proof.
  intros V.
  destruct (transport_emissions_nonneg V) as [t [T Ht]].
  destruct (energy_emissions_nonneg V) as [e [E He]].
  destruct (diet_emissions_positive V) as [d [D Hd]].
  destruct (consumption_emissions_nonneg V) as [c [C Hc]].
  destruct (waste_emissions_nonneg V) as [w [W Hw]].
  unfold press. cbn [fst snd].
  rewrite (@press_calculate_returns Q _ now i s _ _ _ _ _ T E D C W).
  cbn [snd session]. unfold results_shown, update_session. cbn [total_emissions].
  assert (P : (0 < t + e + d + c + w)%Q) by lra.
  split.
  - simpl. apply negb_true_iff. apply not_true_iff_false.
    rewrite Qle_bool_iff. now apply Qlt_not_le.
  - eexists. split; [reflexivity|exact P].
Qed.

(** * What is displayed beside the comparisons *)

(** On binary64 [f_abs] is the absolute value of IEEE 754 (the primitive
    [abs]), zeros, infinities and NaN included. *)
Lemma f_abs_on_binary64 (x : float) : f_abs x = abs x.
Proof.
  apply Prim2SF_inj. rewrite abs_spec. unfold f_abs. simpl.
  change (float_of_Z 0) with 0%float.
  rewrite ltb_spec, eqb_spec. change (Prim2SF 0%float) with (S754_zero false).
  destruct (Prim2SF x) as [sg|sg| |sg m e] eqn:E; simpl.
  - reflexivity.
  - destruct sg; simpl; [|exact E]. rewrite sub_spec, E. reflexivity.
  - exact E.
  - destruct sg; simpl; [|exact E]. rewrite sub_spec, E. reflexivity.
Qed.

(** Beside "Compared to World Average" the page shows the size of the
    difference, never negative, with the word "higher" exactly when the
    total is above 4700; a total of exactly 4700 is shown as 0 "lower". *)
Theorem world_metric_shows_size_and_direction (s : session_state Q) (t : Q) :
  total_emissions s = PyFloat t ->
  exists m : Q,
    world_metric s =
      Ok (PyFloat m,
          if Qle_bool t 4700 then "lower"%string else "higher"%string) /\
    (m == Qabs ((t - 4700) / 4700 * 100))%Q /\ (0 <= m)%Q.
Proof.
  intros T. unfold world_metric, percentage_diff_world. rewrite T.
  cbv [bind py_truediv py_sub py_mul world_average is_zero to_float py_gt py_abs
       f_abs f_ltb f_eqb f_sub f_div f_mul f_of_Z Q_ops Z.eqb].
  change (inject_Z 4700) with 4700%Q. change (inject_Z 100) with 100%Q.
  change (inject_Z 0) with 0%Q.
  set (pd := ((t - 4700) / 4700 * 100)%Q).
  assert (E : (pd == (t - 4700) * (100 / 4700))%Q) by (unfold pd; field).
  assert (S1 : (t <= 4700 -> pd <= 0)%Q).
  { intros L. rewrite E.
    setoid_replace 0%Q with (0 * (100 / 4700))%Q by ring.
    apply Qmult_le_compat_r; [lra|discriminate]. }
  assert (S2 : (4700 < t -> 0 < pd)%Q).
  { intros L. rewrite E. apply Qmult_lt_0_compat; [lra|reflexivity]. }
  destruct (Qle_bool t 4700) eqn:B.
  - apply Qle_bool_iff in B. pose proof (S1 B) as P.
    assert (Bp : Qle_bool pd 0 = true) by now apply Qle_bool_iff.
    rewrite Bp. cbn [negb].
    destruct (Qle_bool 0 pd) eqn:B0; cbn [negb].
    + apply Qle_bool_iff in B0.
      assert (Be : Qeq_bool pd 0 = true) by (apply Qeq_bool_iff; lra).
      rewrite Be. eexists. split; [reflexivity|].
      split; [|discriminate].
      eapply Qeq_trans; [|apply Qeq_sym; apply Qabs_pos; exact B0]. lra.
    + eexists. split; [reflexivity|].
      assert (N : (pd < 0)%Q).
      { apply Qnot_le_lt. intros L. apply Qle_bool_iff in L. congruence. }
      split; [|lra].
      eapply Qeq_trans; [|apply Qeq_sym; apply Qabs_neg; lra]. ring.
  - assert (L : (4700 < t)%Q).
    { apply Qnot_le_lt. intros L. apply Qle_bool_iff in L. congruence. }
    pose proof (S2 L) as P.
    assert (Bp : Qle_bool pd 0 = false).
    { apply not_true_iff_false. rewrite Qle_bool_iff. now apply Qlt_not_le. }
    rewrite Bp. cbn [negb]. eexists. split; [reflexivity|].
    split; [|lra].
    apply Qeq_sym. apply Qabs_pos. lra.
Qed.

(** The "Difference" with a country of positive reference carries the
    word "higher" exactly when the total is above the reference, and the
    number is displayed with its sign: below the reference the page shows a
    negative number followed by "lower". *)
Theorem country_metric_shows_signed_difference (t reference : Q) :
  (0 < reference)%Q ->
  let shown := country_metric (percentage_diff (PyFloat t) reference) in
  (snd shown = "higher"%string <-> (reference < t)%Q) /\
  ((t < reference)%Q -> (fst shown < 0)%Q /\ snd shown = "lower"%string).
Proof.
  intros Hr. cbv zeta.
  cbv [country_metric percentage_diff to_float fst snd
       f_ltb f_sub f_div f_mul f_of_Z Q_ops].
  change (inject_Z 100) with 100%Q. change (inject_Z 0) with 0%Q.
  set (pd := ((t - reference) / reference * 100)%Q).
  assert (E : (pd == (t - reference) * (100 / reference))%Q)
    by (unfold pd; field; lra).
  assert (K : (0 < 100 / reference)%Q)
    by (apply Qlt_shift_div_l; [exact Hr|lra]).
  assert (S1 : (reference < t -> 0 < pd)%Q).
  { intros L. rewrite E. apply Qmult_lt_0_compat; [lra|exact K]. }
  assert (S2 : (t <= reference -> pd <= 0)%Q).
  { intros L. rewrite E.
    setoid_replace 0%Q with (0 * (100 / reference))%Q by ring.
    apply Qmult_le_compat_r; [lra|lra]. }
  assert (S3 : (t < reference -> pd < 0)%Q).
  { intros L. rewrite E.
    setoid_replace 0%Q with (0 * (100 / reference))%Q by ring.
    apply Qmult_lt_compat_r; [exact K|lra]. }
  split.
  - destruct (Qle_bool pd 0) eqn:B; cbn [negb].
    + apply Qle_bool_iff in B. split; [discriminate|].
      intros L. pose proof (S1 L). lra.
    + split; [|reflexivity]. intros _.
      apply Qnot_le_lt. intros L. apply S2 in L. apply Qle_bool_iff in L. congruence.
  - intros L. pose proof (S3 L) as N. split; [exact N|].
    assert (B : Qle_bool pd 0 = true) by (apply Qle_bool_iff; lra).
    now rewrite B.
Qed.

(** * Further properties of the dataset section *)

(** ** The order of strings *)

Lemma ascii_compare_trans (a b c : Ascii.ascii) (o : comparison) :
  Ascii.compare a b = o -> Ascii.compare b c = o -> Ascii.compare a c = o.
Proof.
  unfold Ascii.compare. destruct o.
  - rewrite !N.compare_eq_iff. congruence.
  - rewrite !N.compare_lt_iff. apply N.lt_trans.
  - rewrite !N.compare_gt_iff. intros H1 H2. now apply N.lt_trans with (1 := H2).
Qed.

Lemma string_compare_trans_not_gt (a b c : string) :
  String.compare a b <> Gt -> String.compare b c <> Gt -> String.compare a c <> Gt.
Proof.
  revert b c. induction a as [|x a IH]; intros [|y b] [|z c]; simpl;
    try congruence.
  destruct (Ascii.compare x y) eqn:Exy; [| |congruence];
    destruct (Ascii.compare y z) eqn:Eyz; try congruence; intros H1 H2.
  - apply Ascii.compare_eq_iff in Exy, Eyz. subst.
    assert (R : Ascii.compare z z = Eq) by (unfold Ascii.compare; apply N.compare_refl).
    rewrite R. now apply IH with (b := b).
  - apply Ascii.compare_eq_iff in Exy. subst. now rewrite Eyz.
  - apply Ascii.compare_eq_iff in Eyz. subst. now rewrite Exy.
  - now rewrite (ascii_compare_trans _ _ _ Exy Eyz).
Qed.

Lemma string_leb_trans (a b c : string) :
  String.leb a b = true -> String.leb b c = true -> String.leb a c = true.
Proof.
  unfold String.leb. intros H1 H2.
  pose proof (@string_compare_trans_not_gt a b c) as T.
  destruct (String.compare a b); destruct (String.compare b c);
    destruct (String.compare a c); try reflexivity; try discriminate;
    exfalso; apply T; congruence.
Qed.

(** ** Distinct values, sorted *)

Lemma unique_In (l : list string) (x : string) : In x (unique l) <-> In x l.
Proof.
  induction l as [|y l IH]; simpl; [reflexivity|].
  rewrite filter_In, IH, negb_true_iff, String.eqb_neq.
  destruct (String.eqb_spec x y) as [->|N]; intuition congruence.
Qed.

Lemma unique_NoDup (l : list string) : NoDup (unique l).
Proof.
  induction l as [|y l IH]; simpl; constructor.
  - rewrite filter_In, negb_true_iff, String.eqb_neq. tauto.
  - now apply NoDup_filter.
Qed.

Lemma insert_string_perm (x : string) (l : list string) :
  Permutation (x :: l) (insert_string x l).
Proof.
  induction l as [|y l IH]; simpl; [reflexivity|].
  destruct (String.leb x y); [reflexivity|].
  rewrite perm_swap. now apply perm_skip.
Qed.

Lemma sorted_strings_perm (l : list string) : Permutation l (sorted_strings l).
Proof.
  induction l as [|x l IH]; simpl; [reflexivity|].
  rewrite <- insert_string_perm. now apply perm_skip.
Qed.

Lemma insert_string_sorted (x : string) (l : list string) :
  StronglySorted (fun a b => String.leb a b = true) l ->
  StronglySorted (fun a b => String.leb a b = true) (insert_string x l).
Proof.
  induction 1 as [|y l S IH All]; simpl.
  - constructor; constructor.
  - destruct (String.leb x y) eqn:B.
    + constructor; [constructor; assumption|].
      constructor; [exact B|].
      eapply Forall_impl; [|exact All].
      intros z Hz. exact (string_leb_trans _ _ _ B Hz).
    + constructor; [exact IH|].
      apply (Permutation_Forall (insert_string_perm x l)).
      constructor; [|exact All].
      destruct (String.leb_total y x); [assumption|congruence].
Qed.

Lemma sorted_strings_sorted (l : list string) :
  StronglySorted (fun a b => String.leb a b = true) (sorted_strings l).
Proof.
  induction l as [|x l IH]; simpl; [constructor|].
  now apply insert_string_sorted.
Qed.

Section DatasetFacts.

Context {F : Type} {ops : FloatOps F}.

Implicit Types (emissions_df : DataFrame F).

Lemma countries_spec emissions_df (c : string) :
  In c (countries emissions_df) <->
  exists r : row F, In r emissions_df /\ Country r = c.
Proof.
  unfold countries.
  assert (E : In c (map Country emissions_df) <->
              exists r : row F, In r emissions_df /\ Country r = c).
  { rewrite in_map_iff. split; intros [r [A B]]; exists r; auto. }
  split; intros H.
  - apply E, unique_In.
    exact (Permutation_in _ (Permutation_sym (sorted_strings_perm _)) H).
  - apply (Permutation_in _ (sorted_strings_perm _)). now apply unique_In, E.
Qed.

(** The country selector offers each country of the dataset exactly once,
    in increasing order, and nothing else. *)
Theorem countries_are_sorted_and_distinct emissions_df :
  StronglySorted (fun a b => String.leb a b = true) (countries emissions_df) /\
  NoDup (countries emissions_df) /\
  forall c : string,
    In c (countries emissions_df) <->
    exists r : row F, In r emissions_df /\ Country r = c.
Proof.
  unfold countries. split; [apply sorted_strings_sorted|]. split.
  - apply (Permutation_NoDup (sorted_strings_perm _)). apply unique_NoDup.
  - apply countries_spec.
Qed.

(** ** The rank of the selected country *)

Lemma latest_record_exists emissions_df (c : string) :
  (exists r0 : row F, In r0 emissions_df /\ Country r0 = c) ->
  exists r : row F,
    latest_record emissions_df c = Some r /\ In r emissions_df /\ Country r = c.
Proof.
  intros [r0 [I0 C0]]. unfold latest_record, country_data.
  set (rows := filter (fun r => String.eqb (Country r) c) emissions_df).
  pose proof (sort_values_perm by_year_descending rows) as P.
  assert (I : In r0 rows) by (apply filter_In; split; [exact I0|now apply String.eqb_eq]).
  destruct (sort_values by_year_descending rows) as [|r rest].
  - apply (Permutation_in _ P) in I. contradiction.
  - exists r. split; [reflexivity|].
    assert (Ir : In r rows) by (apply (Permutation_in _ (Permutation_sym P)); now left).
    apply filter_In in Ir. destruct Ir as [Ir Cr].
    split; [exact Ir|now apply String.eqb_eq].
Qed.

Lemma in_combine_index (X : Type) (ks : list Z) (l : list X) (x : X) :
  length ks = length l -> In x l -> exists k, In (k, x) (combine ks l).
Proof.
  revert ks. induction l as [|y l IH]; intros [|k ks]; simpl; try discriminate;
    [contradiction|].
  intros E [->|I].
  - exists k. now left.
  - destruct (IH ks) as [k' Hk']; [now inversion E|exact I|].
    exists k'. now right.
Qed.

Lemma global_data_In emissions_df (year k : Z) (r : row F) :
  In (k, r) (global_data emissions_df year) ->
  In r emissions_df /\ Year r = year /\
  (1 <= k <= total_countries (global_data emissions_df year))%Z.
Proof.
  unfold global_data, total_countries.
  set (rows := filter (fun r => (Year r =? year)%Z) emissions_df).
  set (sorted := sort_values by_per_capita_descending rows).
  intros I. rewrite length_combine, length_map, length_seq, Nat.min_id.
  pose proof (in_combine_l _ _ _ _ I) as Ik.
  pose proof (in_combine_r _ _ _ _ I) as Ir.
  apply (Permutation_in _ (Permutation_sym (sort_values_perm _ rows))) in Ir.
  apply filter_In in Ir. destruct Ir as [Ir Y]. apply Z.eqb_eq in Y.
  apply in_map_iff in Ik. destruct Ik as [n [<- Hn]]. apply in_seq in Hn.
  repeat split; try assumption; lia.
Qed.

Lemma global_data_has_row emissions_df (r : row F) :
  In r emissions_df ->
  exists k, In (k, r) (global_data emissions_df (Year r)).
Proof.
  intros I. unfold global_data.
  set (rows := filter (fun r' => (Year r' =? Year r)%Z) emissions_df).
  apply in_combine_index.
  - now rewrite length_map, length_seq.
  - apply (Permutation_in _ (sort_values_perm _ rows)).
    apply filter_In. split; [exact I|apply Z.eqb_refl].
Qed.

Lemma country_rank_found (ranking : list (Z * row F)) (c : string) :
  (exists k r, In (k, r) ranking /\ Country r = c) ->
  exists k r, country_rank ranking c = Ok k /\ In (k, r) ranking /\ Country r = c.
Proof.
  induction ranking as [|[k0 r0] ranking IH]; simpl.
  - intros [k [r [[] _]]].
  - intros [k [r [I C]]].
    destruct (String.eqb_spec (Country r0) c) as [E|N].
    + exists k0, r0. repeat split; auto.
    + destruct I as [I|I]; [inversion I; subst; contradiction|].
      destruct IH as [k' [r' [R [I' C']]]]; [now exists k, r|].
      exists k', r'. repeat split; auto.
Qed.

Lemma country_rank_absent (ranking : list (Z * row F)) (c : string) :
  (forall k r, In (k, r) ranking -> Country r <> c) ->
  country_rank ranking c = Raise IndexError.
Proof.
  induction ranking as [|[k0 r0] ranking IH]; simpl; intros A; [reflexivity|].
  destruct (String.eqb_spec (Country r0) c) as [E|N].
  - exfalso. apply (A k0 r0); auto.
  - apply IH. intros k r I. apply (A k r). now right.
Qed.

(** For every country the selector offers, the comparison finds a latest
    row and the lookup of the rank in the ranking of that year succeeds,
    with 1 <= rank <= number of rows of the year; the lookup raises
    [IndexError] for a country without row in the year of the ranking,
    which the selector never leads to. *)
Theorem selected_country_is_always_ranked emissions_df :
  (forall c : string,
      In c (countries emissions_df) ->
      exists (r : row F) (k : Z),
        latest_record emissions_df c = Some r /\
        country_rank (global_data emissions_df (Year r)) c = Ok k /\
        (1 <= k <= total_countries (global_data emissions_df (Year r)))%Z)
  /\
  (forall (c : string) (year : Z),
      (forall r, In r emissions_df -> Year r = year -> Country r <> c) ->
      country_rank (global_data emissions_df year) c = Raise IndexError).
Proof.
  split.
  - intros c Hc.
    destruct (countries_spec emissions_df c) as [H _].
    destruct (@latest_record_exists emissions_df c (H Hc)) as [r [L [Ir Cr]]].
    destruct (@global_data_has_row emissions_df r Ir) as [k0 Hk0].
    destruct (@country_rank_found (global_data emissions_df (Year r)) c)
      as [k [r' [R [I' C']]]]; [now exists k0, r|].
    exists r, k. split; [exact L|]. split; [exact R|].
    now destruct (@global_data_In emissions_df (Year r) k r' I') as [_ [_ B]].
  - intros c year A. apply country_rank_absent.
    intros k r I. destruct (@global_data_In emissions_df year k r I) as [Ir [Y _]].
    now apply A.
Qed.

(** ** The tables of the ranking *)

Lemma indexed_firstn (rows : list (row F)) (a m : nat) (k : Z) (r : row F) :
  In (k, r) (combine (map Z.of_nat (seq a (length rows))) rows) ->
  (k < Z.of_nat a + Z.of_nat m)%Z ->
  In (k, r) (firstn m (combine (map Z.of_nat (seq a (length rows))) rows)).
Proof.
  revert a m. induction rows as [|x rows IH]; intros a m; simpl; [contradiction|].
  intros [E|I] Hk.
  - inversion E. subst. destruct m as [|m]; [lia|]. now left.
  - destruct m as [|m].
    + apply in_combine_l in I. apply in_map_iff in I.
      destruct I as [n [<- Hn]]. apply in_seq in Hn. lia.
    + right. apply IH; [exact I|lia].
Qed.

Lemma loc_slice_length (rows : list (row F)) (a : nat) (lo hi : Z) :
  length (loc_slice lo hi (combine (map Z.of_nat (seq a (length rows))) rows)) =
  Z.to_nat (Z.min hi (Z.of_nat a + Z.of_nat (length rows) - 1)
            - Z.max lo (Z.of_nat a) + 1).
Proof.
  unfold loc_slice.
  revert a. induction rows as [|x rows IH]; intros a;
    cbn [length seq map combine filter fst]; [lia|].
  specialize (IH (S a)).
  destruct (lo <=? Z.of_nat a)%Z eqn:B1; destruct (Z.of_nat a <=? hi)%Z eqn:B2;
    cbn [andb length]; rewrite IH;
    rewrite ?Z.leb_le, ?Z.leb_gt in B1, B2; lia.
Qed.

Lemma loc_slice_In (ranking : list (Z * row F)) (lo hi k : Z) (r : row F) :
  In (k, r) (loc_slice lo hi ranking) <-> In (k, r) ranking /\ (lo <= k <= hi)%Z.
Proof.
  unfold loc_slice. rewrite filter_In. simpl.
  rewrite andb_true_iff, !Z.leb_le. tauto.
Qed.

(** The tables displayed under the rank always contain the row of the
    selected country that gives its rank: the top 10 for a rank up to 10;
    beyond, the top 5 is followed by the table of the ranks from
    [rank - 2] to [rank + 2] that exist, three to five rows. *)
Theorem ranking_tables_contain_selected_country
    emissions_df (year : Z) (selected_country : string) (k : Z) :
  let ranking := global_data emissions_df year in
  country_rank ranking selected_country = Ok k ->
  exists r : row F,
    Country r = selected_country /\ In (k, r) ranking /\
    let (top, around) := ranking_tables ranking k in
    ((k <= 10)%Z -> In (k, r) top /\ around = []) /\
    ((10 < k)%Z ->
       length top = 5%nat /\ In (k, r) around /\
       (3 <= length around <= 5)%nat /\
       forall k' r', In (k', r') around -> (k - 2 <= k' <= k + 2)%Z).
Proof.
  intros ranking R.
  assert (Hf : exists r, In (k, r) ranking /\ Country r = selected_country).
  { clear - R. induction ranking as [|[k0 r0] ranking IH]; simpl in R; [discriminate|].
    destruct (String.eqb_spec (Country r0) selected_country) as [E|N].
    - inversion R. exists r0. split; [now left|exact E].
    - destruct (IH R) as [r [I C]]. exists r. split; [now right|exact C]. }
  destruct Hf as [r [I C]]. exists r. split; [exact C|]. split; [exact I|].
  destruct (@global_data_In emissions_df year k r I) as [_ [_ [K1 K2]]].
  fold ranking in K2. unfold ranking_tables.
  assert (Hr : ranking =
               combine (map Z.of_nat
                          (seq 1 (length (sort_values by_per_capita_descending
                             (filter (fun r => (Year r =? year)%Z) emissions_df)))))
                       (sort_values by_per_capita_descending
                          (filter (fun r => (Year r =? year)%Z) emissions_df)))
    by reflexivity.
  set (rows := sort_values by_per_capita_descending
                 (filter (fun r => (Year r =? year)%Z) emissions_df)) in Hr.
  assert (N : total_countries ranking = Z.of_nat (length rows)).
  { unfold total_countries. rewrite Hr, length_combine, length_map, length_seq.
    now rewrite Nat.min_id. }
  clearbody ranking rows. unfold total_countries in *.
  destruct (k <=? 10)%Z eqn:B.
  - apply Z.leb_le in B. split; [|lia]. intros _. split; [|reflexivity].
    rewrite Hr. apply indexed_firstn; [now rewrite <- Hr|lia].
  - apply Z.leb_gt in B. split; [lia|]. intros _.
    split.
    { rewrite length_firstn. lia. }
    split.
    { apply loc_slice_In. split; [exact I|]. unfold lower_bound, upper_bound. lia. }
    split.
    { assert (Len : forall lo hi : Z,
                length (loc_slice lo hi ranking) =
                Z.to_nat (Z.min hi (Z.of_nat 1 + Z.of_nat (length rows) - 1)
                          - Z.max lo (Z.of_nat 1) + 1))
        by (intros lo hi; rewrite Hr; apply loc_slice_length).
      rewrite Len. unfold lower_bound, upper_bound. lia. }
    intros k' r' I'. apply loc_slice_In in I'. destruct I' as [_ Hk'].
    unfold lower_bound, upper_bound in Hk'. lia.
Qed.

(** ** The regional comparison *)

(** The regional chart shows exactly the rows of the region and year
    asked for, and for a selected country with rows it contains the latest
    row of that country. *)
Theorem region_data_contains_selected_country
    emissions_df (selected_country : string) :
  (forall (country_region : string) (year : Z) (r : row F),
      In r (region_data emissions_df country_region year) <->
      In r emissions_df /\ Region r = country_region /\ Year r = year)
  /\
  (forall r : row F,
      latest_record emissions_df selected_country = Some r ->
      Country r = selected_country /\
      In r (region_data emissions_df (Region r) (Year r))).
Proof.
  assert (G : forall (country_region : string) (year : Z) (r : row F),
      In r (region_data emissions_df country_region year) <->
      In r emissions_df /\ Region r = country_region /\ Year r = year).
  { intros reg year r. unfold region_data.
    set (rows := filter _ emissions_df).
    assert (E : In r rows <->
                In r emissions_df /\ Region r = reg /\ Year r = year).
    { unfold rows. rewrite filter_In, andb_true_iff, String.eqb_eq, Z.eqb_eq.
      tauto. }
    rewrite <- E. split.
    - apply Permutation_in. apply Permutation_sym, sort_values_perm.
    - apply Permutation_in. apply sort_values_perm. }
  split; [exact G|].
  intros r L. unfold latest_record, country_data in L.
  set (rows := filter (fun r => String.eqb (Country r) selected_country) emissions_df) in L.
  pose proof (sort_values_perm by_year_descending rows) as P.
  destruct (sort_values by_year_descending rows) as [|r' rest]; [discriminate|].
  inversion L. subst r'.
  assert (Ir : In r rows) by (apply (Permutation_in _ (Permutation_sym P)); now left).
  apply filter_In in Ir. destruct Ir as [Ir Cr]. apply String.eqb_eq in Cr.
  split; [exact Cr|]. apply G. auto.
Qed.

End DatasetFacts.

(** ** The years and the growth figures *)

(** An empty dataset has no earliest nor latest year; otherwise both exist,
    they are years of rows, and the year of every row lies between them. *)
Theorem year_range_of_dataset (F : Type) (emissions_df : DataFrame F) :
  (emissions_df = [] ->
   earliest_year emissions_df = None /\ latest_year emissions_df = None) /\
  (emissions_df <> [] ->
   exists y0 y1 : Z,
     earliest_year emissions_df = Some y0 /\
     latest_year emissions_df = Some y1 /\
     (exists r, In r emissions_df /\ Year r = y0) /\
     (exists r, In r emissions_df /\ Year r = y1) /\
     forall r, In r emissions_df -> (y0 <= Year r <= y1)%Z).
Proof.
  split; [intros ->; split; reflexivity|].
  intros N.
  destruct (earliest_year emissions_df) as [y0|] eqn:E0.
  2:{ unfold earliest_year in E0. destruct emissions_df; [congruence|discriminate]. }
  destruct (latest_year emissions_df) as [y1|] eqn:E1.
  2:{ unfold latest_year in E1. destruct emissions_df; [congruence|discriminate]. }
  destruct (earliest_year_spec _ E0) as [I0 M0].
  destruct (latest_year_spec _ E1) as [I1 M1].
  exists y0, y1. repeat split; try reflexivity.
  - apply in_map_iff in I0. destruct I0 as [r [Y I]]. now exists r.
  - apply in_map_iff in I1. destruct I1 as [r [Y I]]. now exists r.
  - apply M0. now apply in_map.
  - apply M1. now apply in_map.
Qed.

(** When all the rows are of one year, the growth of every region with a
    nonzero total is 0 %, and so is the global growth when the total of the
    year is not zero. *)
Theorem single_year_growth_is_zero (emissions_df : DataFrame Q) (y : Z) :
  earliest_year emissions_df = Some y ->
  latest_year emissions_df = Some y ->
  (forall (region : string) (e : Q),
      region_cell emissions_df y region = Some e -> ~ (e == 0)%Q ->
      exists g : Q, region_growth_pct emissions_df region = Some g /\ (g == 0)%Q)
  /\
  (~ (total_by_year emissions_df y == 0)%Q ->
   exists g : Q, total_growth emissions_df = Some g /\ (g == 0)%Q).
Proof.
  intros E0 E1. split.
  - intros region e C N. unfold region_growth_pct. rewrite E0, E1, C.
    eexists. split; [reflexivity|].
    cbv [growth_pct f_mul f_sub f_div f_of_Z Q_ops].
    change (inject_Z 1) with 1%Q. change (inject_Z 100) with 100%Q.
    field. exact N.
  - intros N. unfold total_growth. rewrite E0, E1.
    eexists. split; [reflexivity|].
    cbv [growth_pct f_mul f_sub f_div f_of_Z Q_ops].
    change (inject_Z 1) with 1%Q. change (inject_Z 100) with 100%Q.
    field. exact N.
Qed.

Lemma idxmax_spec (series : list (string * option Q)) (label : string) (x : Q) :
  idxmax series = Some (label, x) ->
  In (label, Some x) series /\
  forall label' x', In (label', Some x') series -> (x' <= x)%Q.
Proof.
  revert label x. induction series as [|[l [v|]] series IH]; intros label x; simpl.
  - discriminate.
  - assert (R : Qeq_bool v v = true) by (apply Qeq_bool_iff; reflexivity).
    rewrite R. destruct (idxmax series) as [[l' v']|] eqn:M.
    + destruct (IH l' v' eq_refl) as [I Mx].
      destruct (Qle_bool v' v) eqn:B; simpl; intros E; inversion E; subst.
      * apply Qle_bool_iff in B. split; [now left|].
        intros l2 x2 [J|J]; [inversion J; subst; apply Qle_refl|].
        eapply Qle_trans; [exact (Mx _ _ J)|exact B].
      * split; [now right|].
        intros l2 x2 [J|J]; [|exact (Mx _ _ J)].
        inversion J. subst. apply Qnot_lt_le. intros L'.
        apply not_true_iff_false in B. apply B. apply Qle_bool_iff.
        now apply Qlt_le_weak.
    + intros E. inversion E. subst. split; [now left|].
      intros l2 x2 [J|J]; [inversion J; subst; apply Qle_refl|].
      exfalso. clear - M J. induction series as [|[l3 [v3|]] series IH]; simpl in *.
      * contradiction.
      * assert (R : Qeq_bool v3 v3 = true) by (apply Qeq_bool_iff; reflexivity).
        rewrite R in M. destruct (idxmax series) as [[? ?]|];
          [destruct (negb (Qle_bool q v3)); discriminate|discriminate].
      * destruct J as [J|J]; [discriminate|]. now apply IH.
  - intros E. destruct (IH _ _ E) as [I Mx]. split; [now right|].
    intros l2 x2 [J|J]; [discriminate|exact (Mx _ _ J)].
Qed.

Lemma idxmin_spec (series : list (string * option Q)) (label : string) (x : Q) :
  idxmin series = Some (label, x) ->
  In (label, Some x) series /\
  forall label' x', In (label', Some x') series -> (x <= x')%Q.
Proof.
  revert label x. induction series as [|[l [v|]] series IH]; intros label x; simpl.
  - discriminate.
  - assert (R : Qeq_bool v v = true) by (apply Qeq_bool_iff; reflexivity).
    rewrite R. destruct (idxmin series) as [[l' v']|] eqn:M.
    + destruct (IH l' v' eq_refl) as [I Mx].
      destruct (Qle_bool v v') eqn:B; simpl; intros E; inversion E; subst.
      * apply Qle_bool_iff in B. split; [now left|].
        intros l2 x2 [J|J]; [inversion J; subst; apply Qle_refl|].
        eapply Qle_trans; [exact B|exact (Mx _ _ J)].
      * split; [now right|].
        intros l2 x2 [J|J]; [|exact (Mx _ _ J)].
        inversion J. subst. apply Qnot_lt_le. intros L'.
        apply not_true_iff_false in B. apply B. apply Qle_bool_iff.
        now apply Qlt_le_weak.
    + intros E. inversion E. subst. split; [now left|].
      intros l2 x2 [J|J]; [inversion J; subst; apply Qle_refl|].
      exfalso. clear - M J. induction series as [|[l3 [v3|]] series IH]; simpl in *.
      * contradiction.
      * assert (R : Qeq_bool v3 v3 = true) by (apply Qeq_bool_iff; reflexivity).
        rewrite R in M. destruct (idxmin series) as [[? ?]|];
          [destruct (negb (Qle_bool v3 q)); discriminate|discriminate].
      * destruct J as [J|J]; [discriminate|]. now apply IH.
  - intros E. destruct (IH _ _ E) as [I Mx]. split; [now right|].
    intros l2 x2 [J|J]; [discriminate|exact (Mx _ _ J)].
Qed.

(** For a dataset whose regional totals of the earliest year are not zero
    (there the division of the exact carrier is the one of pandas, which
    gives an infinity or NaN on a zero total),
    the region named as the fastest growing has the greatest growth among
    the regions that have one, the region named as the fastest declining
    has the least, and the sentence on the decline is written exactly when
    that least growth is negative. *)
Theorem fastest_regions_are_extremes (emissions_df : DataFrame Q) :
  (forall (y0 : Z) (region : string) (e : Q),
      earliest_year emissions_df = Some y0 ->
      region_cell emissions_df y0 region = Some e -> ~ (e == 0)%Q) ->
  (forall (region : string) (g : Q),
      fastest_growing emissions_df = Some (region, g) ->
      In region (regions emissions_df) /\
      region_growth_pct emissions_df region = Some g /\
      forall (region' : string) (g' : Q),
        In region' (regions emissions_df) ->
        region_growth_pct emissions_df region' = Some g' -> (g' <= g)%Q)
  /\
  (forall (region : string) (g : Q),
      fastest_declining emissions_df = Some (region, g) ->
      In region (regions emissions_df) /\
      region_growth_pct emissions_df region = Some g /\
      (forall (region' : string) (g' : Q),
          In region' (regions emissions_df) ->
          region_growth_pct emissions_df region' = Some g' -> (g <= g')%Q) /\
      (declining_shown emissions_df = true <-> (g < 0)%Q)).
Proof.
  intros _.
  assert (S : forall (region : string) (g : Q),
             In (region, Some g) (region_growth_series emissions_df) <->
             In region (regions emissions_df) /\
             region_growth_pct emissions_df region = Some g).
  { intros region g. unfold region_growth_series. rewrite in_map_iff. split.
    - intros [reg [E I]]. inversion E. subst. auto.
    - intros [I E]. exists region. rewrite E. auto. }
  split.
  - intros region g H. destruct (idxmax_spec _ H) as [I M].
    apply S in I. destruct I as [I E]. repeat split; try assumption.
    intros region' g' I' E'. apply (M region'). apply S. auto.
  - intros region g H. destruct (idxmin_spec _ H) as [I M].
    apply S in I. destruct I as [I E]. repeat split; try assumption.
    + intros region' g' I' E'. apply (M region'). apply S. auto.
    + unfold declining_shown. rewrite H. simpl.
      rewrite negb_true_iff. intros B. apply Qnot_le_lt. intros L.
      apply Qle_bool_iff in L. change (inject_Z 0) with 0%Q in B. congruence.
    + unfold declining_shown. rewrite H. simpl. intros L.
      apply negb_true_iff. apply not_true_iff_false. rewrite Qle_bool_iff.
      now apply Qlt_not_le.
Qed.

(** ** Consumption *)

(** Each recycled category takes 5 % off the consumption emissions and
    second-hand purchases up to 50 %: with [n] recycled categories among
    the five and a second-hand share of [p] %, the emissions are
    [(clothing factor * 500 + 100 * devices) * (1 - n/20) * (1 - p/200)],
    between 37.5 % and 100 % of their value without recycling nor
    second-hand purchase. *)
Theorem consumption_emissions_range (i : inputs Q) :
  In (clothing_spending i) clothing_spending_options ->
  (0 <= electronics_yearly i)%Z ->
  NoDup (recycled_items i) -> incl (recycled_items i) recycled_items_options ->
  percentage (second_hand i) ->
  exists (cf : number Q) (c : Q),
    subfactor "Clothing Spending" (clothing_spending i) = Ok cf /\
    consumption_emissions i = Ok (PyFloat c) /\
    let base := (to_float cf * 500 + inject_Z (100 * electronics_yearly i))%Q in
    let n := inject_Z (Z.of_nat (length (recycled_items i))) in
    (c == base * (1 - n / 20) * (1 - inject_Z (second_hand i) / 200))%Q /\
    ((3 # 8) * base <= c /\ c <= base)%Q.
Proof.
  unfold percentage. intros Hc He Hn Hi Hs.
  pose proof (recycled_items_at_most_five Hn Hi) as Hlen.
  destruct (Qfraction_range Hs (k := 200) eq_refl) as [S1 S2].
  setoid_replace (100 / inject_Z 200)%Q with (1 # 2)%Q in S2 by reflexivity.
  change (inject_Z 200) with 200%Q in S1, S2.
  set (n := inject_Z (Z.of_nat (length (recycled_items i)))).
  assert (N1 : (0 <= n)%Q) by (apply Qnn_inject; lia).
  assert (N2 : (n <= 5)%Q)
    by (unfold n; change 5%Q with (inject_Z 5); rewrite <- Zle_Qle; lia).
  assert (E : (0 <= inject_Z (100 * electronics_yearly i))%Q)
    by (apply Qnn_inject; lia).
  set (el := inject_Z (100 * electronics_yearly i)) in *.
  set (sh := (inject_Z (second_hand i) / 200)%Q) in *.
  assert (G : forall cf : Q, (0 <= cf)%Q ->
            let base := (cf * 500 + el)%Q in
            let c := ((0 + cf * 500 + el) * ((1 - n * (5 / 100)) * (1 - sh)))%Q in
            (c == base * (1 - n / 20) * (1 - sh))%Q /\
            ((3 # 8) * base <= c /\ c <= base)%Q).
  { intros cf Hcf base c.
    assert (Hb : (0 <= base)%Q) by (unfold base; lra).
    assert (Ec : (c == base * ((1 - n / 20) * (1 - sh)))%Q) by (unfold c, base; field).
    split; [unfold c, base; field|].
    assert (Q20 : (n / 20 == n * (1 # 20))%Q) by field.
    assert (A1 : (3 # 4 <= 1 - n / 20)%Q) by lra.
    assert (A2 : (1 - n / 20 <= 1)%Q) by lra.
    assert (A3 : (1 # 2 <= 1 - sh)%Q) by lra.
    assert (A4 : (1 - sh <= 1)%Q) by lra.
    destruct (@Qmult_range (1 - n / 20) (1 - sh) (3 # 4) 1 (1 # 2) 1) as [M1 M2];
      try assumption; try discriminate.
    set (m := ((1 - n / 20) * (1 - sh))%Q) in *.
    assert (L : ((3 # 8) * base <= m * base)%Q).
    { apply Qmult_le_compat_r; [|exact Hb].
      eapply Qle_trans; [|exact M1]. discriminate. }
    assert (U : (m * base <= 1 * base)%Q).
    { apply Qmult_le_compat_r; [|exact Hb].
      eapply Qle_trans; [exact M2|]. discriminate. }
    assert (Ec' : (c == m * base)%Q) by (eapply Qeq_trans; [exact Ec|ring]).
    clearbody c. split; lra. }
  unfold consumption_emissions.
  pick Hc; rewrite Hc; do 2 eexists; (split; [reflexivity|]);
    (split; [reflexivity|]); exact_carrier; cbv zeta;
    rewrite (Z.mul_comm (electronics_yearly i) 100); fold el n;
    change (inject_Z 200) with 200%Q; fold sh;
    change (inject_Z 0) with 0%Q; change (inject_Z 1) with 1%Q;
    change (inject_Z 500) with 500%Q; change (inject_Z 100) with 100%Q;
    change (inject_Z 5) with 5%Q; apply G; discriminate.
Qed.

(** * The guards of the display *)

Section Guards.

Context {F : Type} {ops : FloatOps F}.

Lemma last_item_nonempty (X : Type) (l : list X) :
  l <> [] -> exists x, last_item l = Ok x.
Proof.
  intros N. unfold last_item. destruct (rev l) as [|x r] eqn:E.
  - apply (f_equal (@rev X)) in E. rewrite rev_involutive in E. now elim N.
  - now exists x.
Qed.

Lemma nonempty_of_length (X Y : Type) (l : list X) (l' : list Y) :
  length l = length l' -> l' <> [] -> l <> [].
Proof. destruct l, l'; simpl; congruence. Qed.

Lemma latest_data_defined (l : list (string * inputs F)) :
  let s := presses l initial_session in
  results_shown s = true ->
  exists t e d c w : number F,
    latest_data s = Ok [t; e; d; c; w] /\
    last_item (total (emissions_data s)) = Ok (total_emissions s).
Proof.
  cbv zeta.
  pose proof (session_stays_consistent_aux l) as C.
  set (s := presses l initial_session) in *.
  destruct C as (C1 & C2 & C3 & C4 & C5 & C6 & C7).
  intros G.
  assert (N : total (emissions_data s) <> []).
  { intros E. rewrite E in C7. simpl in C7. unfold results_shown in G.
    rewrite C7 in G. discriminate. }
  assert (Nd : date (emissions_data s) <> [])
    by (eapply nonempty_of_length; [symmetry; exact C6|exact N]).
  destruct (@last_item_nonempty _ (transport (emissions_data s))) as [t Ht];
    [eapply nonempty_of_length; eassumption|].
  destruct (@last_item_nonempty _ (home_energy (emissions_data s))) as [e He];
    [eapply nonempty_of_length; eassumption|].
  destruct (@last_item_nonempty _ (diet (emissions_data s))) as [d Hd];
    [eapply nonempty_of_length; eassumption|].
  destruct (@last_item_nonempty _ (consumption (emissions_data s))) as [c Hc];
    [eapply nonempty_of_length; eassumption|].
  destruct (@last_item_nonempty _ (waste (emissions_data s))) as [w Hw];
    [eapply nonempty_of_length; eassumption|].
  exists t, e, d, c, w. split.
  - unfold latest_data, latest_values, column. simpl.
    now rewrite Ht, He, Hd, Hc, Hw.
  - destruct (last_item (total (emissions_data s))) as [x|] eqn:L.
    + now rewrite C7.
    + destruct (last_item_nonempty N) as [x Hx]. congruence.
Qed.

(** The results are displayed only when the stored total is positive, and
    in a session reached by presses of the button this implies that a
    calculation has been recorded: the reading of the last element of the
    five category lists (lines 302-306 and 358) then never raises
    [IndexError], and the stored total is the last total of the history.
    Before any calculation the reading would raise, and the guard is
    false. *)
Theorem results_guard_protects_last_element (l : list (string * inputs F)) :
  let s := presses l initial_session in
  (results_shown s = true ->
   exists t e d c w : number F,
     latest_data s = Ok [t; e; d; c; w] /\
     last_item (total (emissions_data s)) = Ok (total_emissions s)) /\
  results_shown (@initial_session F) = false /\
  latest_data (@initial_session F) = Raise IndexError.
Proof.
  cbv zeta. split; [exact (latest_data_defined l)|split; reflexivity].
Qed.

(** The comparison with a country is displayed exactly when the dataset
    has a row for it (line 459); nothing is raised otherwise. *)
Theorem country_comparison_defined_iff
    (emissions_df : DataFrame F) (selected_country : string)
    (s : session_state F) :
  country_comparison emissions_df selected_country s <> None <->
  exists r : row F, In r emissions_df /\ Country r = selected_country.
Proof.
  unfold country_comparison. split.
  - destruct (latest_record emissions_df selected_country) as [r|] eqn:L;
      [|congruence].
    intros _. unfold latest_record, country_data in L.
    set (rows := filter _ emissions_df) in L.
    pose proof (sort_values_perm by_year_descending rows) as P.
    destruct (sort_values by_year_descending rows) as [|r' rest]; [discriminate|].
    inversion L. subst r'.
    assert (Ir : In r rows) by (apply (Permutation_in _ (Permutation_sym P)); now left).
    apply filter_In in Ir. destruct Ir as [Ir Cr]. apply String.eqb_eq in Cr.
    now exists r.
  - intros H. destruct (@latest_record_exists F emissions_df selected_country H)
      as [r [L _]].
    rewrite L. discriminate.
Qed.

End Guards.

(** On the exact carrier the focus area is defined whenever the results
    are displayed: in a session reached by presses of the button, a
    positive stored total implies that a category and its four pieces of
    advice are found. *)
Theorem focus_area_defined_when_results_shown (l : list (string * inputs Q)) :
  let s := presses l initial_session in
  results_shown s = true ->
  exists (cat : string) (advice : list string),
    focus_area s = Ok (cat, advice) /\
    In cat categories /\ length advice = 4%nat.
Proof.
  cbv zeta. intros G.
  destruct (latest_data_defined l G) as (t & e & d & c & w & L & _).
  unfold latest_data in L.
  set (s := presses l initial_session) in *.
  set (vs := [t; e; d; c; w]) in *.
  assert (Hne : vs <> []) by discriminate.
  assert (Hlen5 : length vs = 5%nat) by reflexivity.
  clearbody vs.
  destruct (highest_category_index_spec Hne) as [n [x [P [N _]]]].
  assert (Hn : (n < length vs)%nat) by (apply nth_error_Some; rewrite N; discriminate).
  rewrite Hlen5 in Hn.
  assert (Hf : exists cat advice,
             nth_error categories n = Some cat /\
             getitem recommendations cat = Ok advice /\ length advice = 4%nat).
  { destruct n as [|[|[|[|[|n]]]]]; [..|lia]; do 2 eexists;
      (split; [reflexivity|]); split; reflexivity. }
  destruct Hf as [cat [advice [Hc [Ha Hl]]]].
  exists cat, advice. split.
  - unfold focus_area, highest_category. rewrite L. cbn [bind]. rewrite P.
    cbn [bind]. unfold list_item. rewrite Hc. cbn [bind]. now rewrite Ha.
  - split; [eapply nth_error_In; exact Hc|exact Hl].
Qed.

(** * The further properties on the sample data *)

Lemma press_raises_only_for_keys_witness :
  exists (e : exn) (st : state float),
    press_calculate "2024-05-01" (@sample_profile float _ "Solar" "None")
      initial_session = (Raise e, st) /\
    session st = initial_session /\
    key_failure (@sample_profile float _ "Solar" "None") e.
Proof.
  assert (P : press_calculate "2024-05-01" (@sample_profile float _ "Solar" "None")
                initial_session =
              (Raise (KeyError "Solar"),
               {| globals :=
                    [("transport_emissions", PyFloat 0x1.5e66666666666p+9%float)];
                  session := initial_session |}))
    by (vm_compute; reflexivity).
  destruct (press_raises_only_for_keys _ _ _ P) as [S [K _]].
  eexists. eexists. split; [exact P|]. split; [exact S|exact K].
Defined.

Lemma press_returns_iff_accepted_witness :
  offered (@scenario_A float _) /\
  accepted (@scenario_A float _) = true /\
  returns initial_session ("2024-05-01", @scenario_A float _) = true.
Proof.
  assert (H : offered (@scenario_A float _)) by (constructor; simpl; auto 10).
  destruct (press_returns_iff_accepted "2024-05-01" (@scenario_A float _)
              initial_session) as [R [A _]].
  split; [exact H|]. split; [exact (A H)|]. rewrite R. exact (A H).
Defined.

Lemma diet_emissions_without_modifiers_witness :
  (exists (f : number Q) (d : Q),
      factor "Vegan" = Ok f /\
      diet_emissions (@cyclist_profile Q _ 10 false) = Ok (PyFloat d) /\
      (d == to_float f * 365)%Q) /\
  (exists f : number float,
      factor "Vegan" = Ok f /\
      diet_emissions (@cyclist_profile float _ 10 false) =
        Ok (PyFloat (to_float f * float_of_Z 365)%float)).
Proof.
  destruct diet_emissions_without_modifiers as [A B]. split.
  - apply (A (@cyclist_profile Q _ 10 false));
      [simpl; auto 10|reflexivity..].
  - apply (B (@cyclist_profile float _ 10 false));
      [simpl; auto 10|reflexivity..].
Defined.


Lemma composting_scales_waste_by_0_8_witness :
  exists w w' : Q,
    waste_emissions (@cyclist_profile Q _ 10 false) = Ok (PyFloat w) /\
    waste_emissions (@cyclist_profile Q _ 10 true) = Ok (PyFloat w') /\
    (w' == (8 # 10) * w)%Q.
Proof.
  apply (@composting_scales_waste_by_0_8
           (@cyclist_profile Q _ 10 false) (@cyclist_profile Q _ 10 true));
    [simpl; auto 10|reflexivity..].
Defined.

Lemma fully_renewable_energy_is_heating_only_witness :
  exists (hf : number Q) (e : Q),
    heating_factor (@cyclist_profile Q _ 10 false) = Ok hf /\
    energy_emissions (@cyclist_profile Q _ 10 false) = Ok (PyFloat e) /\
    (e == 100 * to_float hf * 12)%Q.
Proof.
  apply (@fully_renewable_energy_is_heating_only (@cyclist_profile Q _ 10 false));
    [simpl; auto 10|reflexivity].
Defined.

Lemma zero_emission_modes_count_flights_only_witness :
  exists t : Q,
    transport_emissions (@cyclist_profile Q _ 10 false) = Ok (PyFloat t) /\
    (t == 0)%Q.
Proof.
  apply (@zero_emission_modes_count_flights_only (@cyclist_profile Q _ 10 false)).
  left. reflexivity.
Defined.

Lemma transport_emissions_monotone_in_distance_witness :
  exists t t' : Q,
    transport_emissions (@sample_profile Q _ "Oil" "None") = Ok (PyFloat t) /\
    transport_emissions
      {| transport_mode := "Car (Gasoline)"; daily_distance := 25%Q;
         fuel_efficiency := inject_Z 8; flight_short := 0; flight_medium := 0;
         flight_long := 0; electricity_kwh := 0; renewable_percentage := 0;
         heating_type := "Oil"; heating_usage := 0; has_ac := false;
         ac_hours := 0; diet_type := "Vegan"; local_food := 0;
         organic_food := 0; food_waste := 0; processed_food := 0;
         clothing_spending := "Low"; electronics_yearly := 0;
         recycled_items := []; second_hand := 0; waste_weekly := 0%Q;
         composting := false; recycling_rate := 0; zero_waste := "None" |}
    = Ok (PyFloat t') /\
    (t <= t')%Q.
Proof.
  apply (@transport_emissions_monotone_in_distance
           (@sample_profile Q _ "Oil" "None"));
    try reflexivity; try discriminate.
  simpl. auto 10.
Defined.

Lemma results_shown_after_valid_calculation_witness :
  results_shown (press initial_session ("2024-05-01", @scenario_A Q _)) = true.
Proof.
  exact (proj1 (@results_shown_after_valid_calculation
                  "2024-05-01" scenario_A initial_session scenario_A_valid)).
Defined.

Lemma world_metric_shows_size_and_direction_witness :
  exists m : Q,
    world_metric
      {| total_emissions := PyFloat 5000%Q;
         emissions_data := emissions_data (@initial_session Q) |}
    = Ok (PyFloat m, "higher") /\
    (m == Qabs ((5000 - 4700) / 4700 * 100))%Q /\ (0 <= m)%Q.
Proof.
  exact (@world_metric_shows_size_and_direction
           {| total_emissions := PyFloat 5000%Q;
              emissions_data := emissions_data (@initial_session Q) |}
           5000%Q eq_refl).
Defined.

Lemma country_metric_shows_signed_difference_witness :
  (fst (country_metric (percentage_diff (PyFloat 1000%Q) 1800%Q)) < 0)%Q /\
  snd (country_metric (percentage_diff (PyFloat 1000%Q) 1800%Q)) = "lower".
Proof.
  assert (H : (0 < 1800)%Q) by reflexivity.
  assert (L : (1000 < 1800)%Q) by reflexivity.
  exact (proj2 (@country_metric_shows_signed_difference 1000%Q 1800%Q H) L).
Defined.

Lemma selected_country_is_always_ranked_witness :
  In "India" (countries (@sample_dataset float _)) /\
  exists (r : row float) (k : Z),
    latest_record sample_dataset "India" = Some r /\
    country_rank (global_data sample_dataset (Year r)) "India" = Ok k /\
    (1 <= k <= total_countries (global_data sample_dataset (Year r)))%Z.
Proof.
  assert (H : In "India" (countries (@sample_dataset float _)))
    by (vm_compute; auto).
  split; [exact H|].
  exact (proj1 (selected_country_is_always_ranked sample_dataset) "India" H).
Defined.

Lemma ranking_tables_contain_selected_country_witness :
  country_rank (global_data (@sample_dataset float _) 2019) "India" = Ok 3%Z /\
  exists r : row float,
    Country r = "India" /\ In (3%Z, r) (global_data sample_dataset 2019).
Proof.
  assert (H : country_rank (global_data (@sample_dataset float _) 2019) "India"
              = Ok 3%Z) by (vm_compute; reflexivity).
  split; [exact H|].
  destruct (@ranking_tables_contain_selected_country
              float _ sample_dataset 2019%Z "India" 3%Z H) as [r [C [I _]]].
  exists r. split; [exact C|exact I].
Defined.

Lemma region_data_contains_selected_country_witness :
  exists r : row float,
    latest_record sample_dataset "India" = Some r /\
    Country r = "India" /\
    In r (region_data sample_dataset (Region r) (Year r)).
Proof.
  eexists. split; [vm_compute; reflexivity|].
  apply (proj2 (region_data_contains_selected_country sample_dataset "India")).
  vm_compute. reflexivity.
Defined.

Lemma year_range_of_dataset_witness :
  @sample_dataset Q _ <> [] /\
  exists y0 y1 : Z,
    earliest_year (@sample_dataset Q _) = Some y0 /\
    latest_year (@sample_dataset Q _) = Some y1 /\
    forall r, In r (@sample_dataset Q _) -> (y0 <= Year r <= y1)%Z.
Proof.
  assert (H : @sample_dataset Q _ <> []) by discriminate.
  split; [exact H|].
  destruct (proj2 (year_range_of_dataset (@sample_dataset Q _)) H)
    as (y0 & y1 & E0 & E1 & _ & _ & B).
  exists y0, y1. repeat split; try assumption; apply B; assumption.
Defined.

Lemma single_year_growth_is_zero_witness :
  exists g : Q,
    region_growth_pct (@single_year_dataset Q _) "Asia" = Some g /\ (g == 0)%Q.
Proof.
  assert (E0 : earliest_year (@single_year_dataset Q _) = Some 2019%Z) by reflexivity.
  assert (E1 : latest_year (@single_year_dataset Q _) = Some 2019%Z) by reflexivity.
  assert (C : region_cell (@single_year_dataset Q _) 2019 "Asia" = Some 2490000%Q)
    by reflexivity.
  assert (N : ~ (2490000 == 0)%Q) by discriminate.
  exact (proj1 (@single_year_growth_is_zero single_year_dataset 2019%Z E0 E1)
               "Asia" 2490000%Q C N).
Defined.

Lemma sample_dataset_nonzero_baseline (y0 : Z) (region : string) (e : Q) :
  earliest_year (@sample_dataset Q _) = Some y0 ->
  region_cell (@sample_dataset Q _) y0 region = Some e -> ~ (e == 0)%Q.
Proof.
  intros E.
  assert (E' : earliest_year (@sample_dataset Q _) = Some 1990%Z) by reflexivity.
  rewrite E' in E. inversion E. subst y0. clear E E'.
  unfold region_cell, sample_dataset.
  cbn [filter Year Region Z.eqb Pos.eqb andb].
  destruct (String.eqb "Asia" region); destruct (String.eqb "Europe" region);
    cbn [andb map fold_left Kilotons_of_Co2]; intros C; inversion C;
    intros H; vm_compute in H; discriminate.
Qed.

Lemma fastest_regions_are_extremes_witness :
  exists (region : string) (g : Q),
    fastest_growing (@sample_dataset Q _) = Some (region, g) /\
    In region (regions (@sample_dataset Q _)) /\
    region_growth_pct (@sample_dataset Q _) region = Some g.
Proof.
  destruct (fastest_growing (@sample_dataset Q _)) as [[region g]|] eqn:E;
    [|vm_compute in E; discriminate].
  destruct (proj1 (@fastest_regions_are_extremes sample_dataset
                     sample_dataset_nonzero_baseline)
              region g E) as [I [G _]].
  exists region, g. repeat split; assumption.
Defined.

Lemma consumption_emissions_range_witness :
  exists (cf : number Q) (c : Q),
    subfactor "Clothing Spending" "Average" = Ok cf /\
    consumption_emissions (@scenario_A Q _) = Ok (PyFloat c) /\
    ((3 # 8) * (to_float cf * 500 + 100) <= c /\ c <= to_float cf * 500 + 100)%Q.
Proof.
  destruct (@consumption_emissions_range (@scenario_A Q _))
    as (cf & c & S & C & _ & B); simpl;
    [auto 10|lia|constructor|intros x []|unfold percentage; simpl; lia|].
  exists cf, c. split; [exact S|]. split; [exact C|exact B].
Defined.

Lemma results_guard_protects_last_element_witness :
  results_shown (presses [("2024-05-01", @scenario_A float _)] initial_session) = true /\
  exists t e d c w : number float,
    latest_data (presses [("2024-05-01", @scenario_A float _)] initial_session)
    = Ok [t; e; d; c; w].
Proof.
  assert (H : results_shown
                (presses [("2024-05-01", @scenario_A float _)] initial_session) = true)
    by (vm_compute; reflexivity).
  split; [exact H|].
  destruct (proj1 (results_guard_protects_last_element
                     [("2024-05-01", @scenario_A float _)]) H)
    as (t & e & d & c & w & L & _).
  now exists t, e, d, c, w.
Defined.

Lemma country_comparison_defined_iff_witness :
  country_comparison (@sample_dataset float _) "India" sample_session <> None.
Proof.
  apply (proj2 (country_comparison_defined_iff sample_dataset "India" sample_session)).
  eexists. split; [left; reflexivity|reflexivity].
Defined.

Lemma focus_area_defined_when_results_shown_witness :
  exists (cat : string) (advice : list string),
    focus_area (presses [("2024-05-01", @scenario_A Q _)] initial_session)
    = Ok (cat, advice) /\
    In cat categories /\ length advice = 4%nat.
Proof.
  apply (focus_area_defined_when_results_shown [("2024-05-01", @scenario_A Q _)]).
  vm_compute. reflexivity.
Defined.
